(** * TOS Buddy web app: static generation and page rendering

    A shallow embedding of the Next.js pages of the repository
    ([getStaticPaths], [getStaticProps], [WebsitePage], [Layout],
    [WebsiteTileGrid]) together with the properties of them that the
    specification states.

    JavaScript strings are sequences of UTF-16 code units; a thrown
    exception is a [Throw] completion; a React element is a tree whose
    leaves are the JavaScript values placed between the tags. *)

From Stdlib Require Import List NArith ZArith Bool String Ascii Lia.
Import ListNotations.

Set Implicit Arguments.
Set Warnings "-register-all".

(* ================================================================== *)
(** ** JavaScript strings *)
(* ================================================================== *)

Module JsString.

(** A string value: its UTF-16 code units. *)
Definition t := list N.

(** An ASCII literal of the source text. *)
Definition lit (s : string) : t :=
  map N_of_ascii (list_ascii_of_string s).

Definition eqb (a b : t) : bool :=
  if list_eq_dec N.eq_dec a b then true else false.

Definition eq_dec : forall a b : t, {a = b} + {a <> b} :=
  list_eq_dec N.eq_dec.

(** ToBoolean of a string: only the empty string is falsy. *)
Definition truthy (s : t) : bool :=
  match s with [] => false | _ :: _ => true end.

(** WhiteSpace and LineTerminator code points, the ones
    [String.prototype.trim] removes. All of them are in the BMP. *)
Definition is_space (c : N) : bool :=
  ((9 <=? c) && (c <=? 13) ||
   (c =? 32) || (c =? 160) || (c =? 5760) ||
   (8192 <=? c) && (c <=? 8202) ||
   (c =? 8232) || (c =? 8233) || (c =? 8239) || (c =? 8287) ||
   (c =? 12288) || (c =? 65279))%N.

Fixpoint trimStart (s : t) : t :=
  match s with
  | [] => []
  | c :: r => if is_space c then trimStart r else s
  end.

Definition trimEnd (s : t) : t := rev (trimStart (rev s)).

Definition trim (s : t) : t := trimEnd (trimStart s).

(** Decimal digits of a non-negative integer, as
    [Number.prototype.toString] prints an array index. *)
Fixpoint digits (fuel : nat) (n : N) (acc : t) : t :=
  match fuel with
  | O => acc
  | S f =>
      let acc' := (48 + N.modulo n 10)%N :: acc in
      if (n <? 10)%N then acc' else digits f (N.div n 10) acc'
  end.

Definition of_N (n : N) : t := digits (S (N.to_nat (N.log2 n))) n [].

End JsString.

Abbreviation jsstring := JsString.t.
Notation "'js' s" := (JsString.lit s%string) (at level 9, s at level 0, only parsing).

(* ================================================================== *)
(** ** Completions: normal results and thrown exceptions *)
(* ================================================================== *)

Inductive js_error : Type :=
| TypeError
| SyntaxError
| NetworkError.

Inductive completion (A : Type) : Type :=
| Normal (a : A)
| Throw (e : js_error).

Arguments Normal {A} a.
Arguments Throw {A} e.

Definition bind {A B} (c : completion A) (k : A -> completion B) : completion B :=
  match c with
  | Normal a => k a
  | Throw e => Throw e
  end.

Notation "x <- c ;; k" := (bind c (fun x => k))
  (at level 61, c at next level, right associativity).

(** [try { c } catch (err) { h }] *)
Definition try_catch {A} (c : completion A) (h : js_error -> A) : A :=
  match c with
  | Normal a => a
  | Throw e => h e
  end.

(** [xs.map(f)] where the callback may throw: elements are visited in
    order and the first exception aborts the loop. *)
Fixpoint mapM {A B} (f : A -> completion B) (l : list A) : completion (list B) :=
  match l with
  | [] => Normal []
  | x :: r => y <- f x ;; ys <- mapM f r ;; Normal (y :: ys)
  end.

(* ================================================================== *)
(** ** The data client *)
(* ================================================================== *)

(** The error object of a query response; only its message is read. *)
Record PostgrestError := { message : jsstring }.

(** What [await supabase.from(..).select(..)] gives: the promise either
    rejects, or resolves to a response of the shape [{ data, error }]. *)
Inductive response (A : Type) : Type :=
| Rejected (e : js_error)
| Resolved (data : option A) (error : option PostgrestError).

Arguments Rejected {A} e.
Arguments Resolved {A} data error.

(** A row of [select('site_name')]. Nothing in the sources types the
    column, so the name may be null. *)
Module NameRow.
Record t := { site_name : option jsstring }.
End NameRow.

(** Modelled from the spec: the row types of [~/types/websites] and
    [~/types/terms_of_service] are not part of the sources. A website has
    an identifier, a display name, a description, a logo reference, a
    canonical URL, an optional category and an optional last-crawled
    timestamp; a terms-of-service row has an identifier, the owning
    website, a source URL and a nullable serialized summary. *)
Record WebsiteRow := {
  id : N;
  site_name : jsstring;
  website_description : jsstring;
  logo_svg : option jsstring;
  url : jsstring;
  category : option jsstring;
  last_crawled : option jsstring
}.

Record TermsOfServiceRow := {
  tos_id : N;
  website_id : N;
  tos_url : jsstring;
  simplified_content : option jsstring
}.

(** The three queries the pages issue, each with the response the store
    gives to it. *)
Record Supabase := {
  (** [from('websites').select('site_name')] *)
  select_site_names : response (list NameRow.t);
  (** [from('websites').select('*').eq('site_name', slug).single()] *)
  select_website : jsstring -> response WebsiteRow;
  (** [from('terms_of_service').select('*').eq('website_id', id).single()] *)
  select_terms_of_service : N -> response TermsOfServiceRow
}.

(* ================================================================== *)
(** ** Path discovery: [getStaticPaths] *)
(* ================================================================== *)

Module Paths.

(** [{ params: { slug } }] *)
Record Path := { slug : jsstring }.

(** [fallback: boolean | 'blocking'] *)
Inductive Fallback :=
| fallback_bool (b : bool)
| blocking.

Record StaticPaths := { paths : list Path; fallback : Fallback }.

(** [new Set(xs)] followed by [Array.from]: the values in insertion
    order, a value already in the set being skipped. *)
Fixpoint Set_add_all (seen : list jsstring) (xs : list jsstring) : list jsstring :=
  match xs with
  | [] => seen
  | x :: r =>
      if in_dec JsString.eq_dec x seen
      then Set_add_all seen r
      else Set_add_all (seen ++ [x]) r
  end.

Definition Array_from_Set (xs : list jsstring) : list jsstring :=
  Set_add_all [] xs.

(** [website.site_name.trim()]: a method call on null throws. *)
Definition trimmed_name (website : NameRow.t) : completion jsstring :=
  match NameRow.site_name website with
  | Some name => Normal (JsString.trim name)
  | None => Throw TypeError
  end.

Definition getStaticPaths_body (supabase : Supabase) : completion StaticPaths :=
  match select_site_names supabase with
  | Rejected e => Throw e
  | Resolved websites error =>
      match error with
      | Some _ => Normal {| paths := []; fallback := blocking |}
      | None =>
          match websites with
          | None => Normal {| paths := []; fallback := blocking |}
          | Some websites =>
              mapped <- mapM (fun website =>
                                s <- trimmed_name website ;;
                                Normal {| slug := s |})
                             websites ;;
              let paths := filter (fun path => JsString.truthy (slug path)) mapped in
              let uniquePaths :=
                map (fun slug => {| slug := slug |})
                    (Array_from_Set (map (fun path => slug path) paths)) in
              Normal {| paths := uniquePaths; fallback := blocking |}
          end
      end
  end.

Definition getStaticPaths (supabase : Supabase) : StaticPaths :=
  try_catch (getStaticPaths_body supabase)
            (fun err => {| paths := []; fallback := blocking |}).

Definition slugs (r : StaticPaths) : list jsstring := map slug (paths r).

(** The names of the rows, when none of them is null. *)
Fixpoint names_of (websites : list NameRow.t) : option (list jsstring) :=
  match websites with
  | [] => Some []
  | w :: r =>
      match NameRow.site_name w, names_of r with
      | Some n, Some ns => Some (n :: ns)
      | _, _ => None
      end
  end.

(** The route keys that a list of names leads to (lines 209-217). *)
Definition keys_of (names : list jsstring) : list jsstring :=
  Array_from_Set
    (map (fun path => slug path)
       (filter (fun path => JsString.truthy (slug path))
          (map (fun name => {| slug := JsString.trim name |}) names))).

End Paths.

(* ================================================================== *)
(** ** Per-route prop resolution: [getStaticProps] *)
(* ================================================================== *)

Module Props.

(** [context.params]; the slug of the dynamic route, when there is one. *)
Record Params := { slug : option jsstring }.

(** [{ notFound: true }] or [{ props: { website, termsOfService },
    revalidate }], the last key being optional. *)
Inductive StaticProps :=
| notFound
| props (website : WebsiteRow) (termsOfService : option TermsOfServiceRow)
        (revalidate : option N).

Definition getStaticProps_body (supabase : Supabase) (params : option Params)
  : completion StaticProps :=
  match params with
  | None => Normal notFound
  | Some params =>
      match slug params with
      | None => Normal notFound
      | Some slug =>
          if negb (JsString.truthy slug) then Normal notFound else
          match select_website supabase slug with
          | Rejected e => Throw e
          | Resolved website websiteError =>
              match websiteError, website with
              | Some _, _ => Normal notFound
              | None, None => Normal notFound
              | None, Some website =>
                  match select_terms_of_service supabase (id website) with
                  | Rejected e => Throw e
                  | Resolved termsOfService termsOfServiceError =>
                      match termsOfServiceError with
                      | Some _ => Normal (props website None None)
                      | None => Normal (props website termsOfService (Some 18000%N))
                      end
                  end
              end
          end
      end
  end.

Definition getStaticProps (supabase : Supabase) (params : option Params)
  : StaticProps :=
  try_catch (getStaticProps_body supabase params) (fun err => notFound).

End Props.

(* ================================================================== *)
(** ** JavaScript values of decoded JSON *)
(* ================================================================== *)

(** A number given by a decimal numeral, [mant * 10 ^ exp10]; the engine
    holds the binary64 value nearest to it. *)
Record jsnumber := { mant : Z; exp10 : Z }.

Definition num_of_N (n : N) : jsnumber := {| mant := Z.of_N n; exp10 := 0 |}.

(** The numeral denotes a value that rounds to zero: zero itself, or a
    magnitude of at most half the least subnormal, [2 ^ -1075]. *)
Definition rounds_to_zero (n : jsnumber) : bool :=
  ((mant n =? 0) ||
   (exp10 n <? 0) && (Z.abs (mant n) * 2 ^ 1075 <=? 10 ^ (- exp10 n)))%Z.

Inductive value : Type :=
| VUndefined
| VNull
| VBool (b : bool)
| VNumber (n : jsnumber)
| VString (s : jsstring)
| VArray (items : list value)
| VObject (members : list (jsstring * value)).

(** ToBoolean *)
Definition truthy (v : value) : bool :=
  match v with
  | VUndefined | VNull => false
  | VBool b => b
  | VNumber n => negb (rounds_to_zero n)
  | VString s => JsString.truthy s
  | VArray _ | VObject _ => true
  end.

Fixpoint lookup (k : jsstring) (members : list (jsstring * value)) : option value :=
  match members with
  | [] => None
  | (k', v) :: r => if JsString.eqb k k' then Some v else lookup k r
  end.

(** [v.name] for one of the names [summary], [potentialDangers] and
    [overallAssessment]: no prototype object has a property of these
    names, so only an own member of an object answers; reading a
    property of [null] or [undefined] throws. *)
Definition get (v : value) (name : jsstring) : completion value :=
  match v with
  | VUndefined | VNull => Throw TypeError
  | VObject members =>
      match lookup name members with
      | Some x => Normal x
      | None => Normal VUndefined
      end
  | _ => Normal VUndefined
  end.

Fixpoint indexed {A} (i : N) (l : list A) : list (N * A) :=
  match l with
  | [] => []
  | x :: r => (i, x) :: indexed (N.succ i) r
  end.

(** [Object.entries(v)]: the own enumerable string-keyed properties. *)
Definition Object_entries (v : value) : completion (list (jsstring * value)) :=
  match v with
  | VUndefined | VNull => Throw TypeError
  | VObject members => Normal members
  | VArray items =>
      Normal (map (fun p => (JsString.of_N (fst p), snd p)) (indexed 0 items))
  | VString s =>
      Normal (map (fun p => (JsString.of_N (fst p), VString [snd p])) (indexed 0 s))
  | VBool _ | VNumber _ => Normal []
  end.

(** [v.map((x, index) => f x index)]: only an array has a callable
    [map]; on any other value the call throws. *)
Definition Array_map {B} (v : value) (f : value -> N -> B) : completion (list B) :=
  match v with
  | VArray items => Normal (map (fun p => f (snd p) (fst p)) (indexed 0 items))
  | _ => Throw TypeError
  end.

(* ================================================================== *)
(** ** The host environment *)
(* ================================================================== *)

(** The library functions the pages call. [JSON_parse] and [URL_host]
    ([new URL(s).host]) may throw; [Date_toLocaleDateString]
    ([new Date(s).toLocaleDateString()]) and [toLowerCase] never do. *)
Record Host := {
  JSON_parse : jsstring -> completion value;
  URL_host : jsstring -> completion jsstring;
  Date_toLocaleDateString : jsstring -> jsstring;
  toLowerCase : jsstring -> jsstring
}.

(* ================================================================== *)
(** ** React elements *)
(* ================================================================== *)

Inductive elem_type : Type :=
| Fragment
| Tag (name : string)          (* an intrinsic element: [<div>] *)
| Component (name : string).   (* a component of another module: [<Link>] *)

Inductive node : Type :=
| Val (v : value)                       (* JSX text or [{expr}] *)
| Arr (items : list node)               (* an array child, from [.map] *)
| Elem (type : elem_type) (key : option jsstring)
       (attrs : list (string * value)) (children : list node).

Definition Txt (s : string) : node := Val (VString (js s)).
Definition Str (s : jsstring) : node := Val (VString s).
Definition el (tag : string) (attrs : list (string * value)) (children : list node) : node :=
  Elem (Tag tag) None attrs children.
Definition comp (name : string) (attrs : list (string * value)) (children : list node) : node :=
  Elem (Component name) None attrs children.
Definition className (s : string) : string * value := ("className"%string, VString (js s)).
Definition attr (k : string) (s : string) : string * value := (k, VString (js s)).

(** A destructuring default [{ flag = d }]: used when the property is
    undefined. *)
Definition default (d : bool) (o : option bool) : bool :=
  match o with Some b => b | None => d end.

(** [!flag && e] *)
Definition unless (flag : bool) (e : node) : node :=
  if negb flag then e else Val (VBool false).

(** [s && e] for a nullable string [s]: the falsy operand itself is the
    child when [s] is null or empty. *)
Definition when_string (s : option jsstring) (e : jsstring -> node) : node :=
  match s with
  | None => Val VNull
  | Some x => if JsString.truthy x then e x else Val (VString x)
  end.

(** Some element of the tree is the intrinsic element [<tag>]. *)
Fixpoint has_tag (tag : string) (n : node) : bool :=
  match n with
  | Val _ => false
  | Arr items => existsb (has_tag tag) items
  | Elem ty _ _ children =>
      match ty with Tag t => String.eqb tag t | _ => false end
      || existsb (has_tag tag) children
  end.

(** [n] occurs in the tree [t], at any depth. *)
Inductive occurs (n : node) : node -> Prop :=
| occurs_here : occurs n n
| occurs_item items x : In x items -> occurs n x -> occurs n (Arr items)
| occurs_child ty k at_ children x :
    In x children -> occurs n x -> occurs n (Elem ty k at_ children).

(* ================================================================== *)
(** ** The layout wrapper: [Layout] *)
(* ================================================================== *)

Module LayoutComponent.

(** [hideHeader?: boolean; hideFooter?: boolean], plus the children
    the wrapper is given; an omitted property is [None]. *)
Record LayoutProps := {
  hideHeader : option bool;
  hideFooter : option bool;
  children : node
}.

(** The effect run at mount: the class put on the document element
    for the stored value of [supabaseDarkMode]. *)
Definition darkModeClass (key : option jsstring) : jsstring :=
  match key with
  | None => js "dark"
  | Some k =>
      if negb (JsString.truthy k) then js "dark"
      else if JsString.eqb k (js "true") then js "dark" else []
  end.

Definition Layout (p : LayoutProps) : node :=
  let hideHeader := default false (hideHeader p) in
  let hideFooter := default true (hideFooter p) in
  Elem Fragment None []
    [ unless hideHeader (comp "Nav" [] []);
      el "div" [className "flex flex-col min-h-screen"]
        [ el "main" [className "flex-grow"] [children p];
          unless hideFooter
            (el "div" [className "mt-auto"] [comp "Footer" [] []]) ] ].

End LayoutComponent.

(* ================================================================== *)
(** ** The listing grid: [WebsiteTileGrid] *)
(* ================================================================== *)

Module Grid.

(** Modelled from the spec: the type [website] of [~/types/websites]
    is not part of the sources; a summarized entity record has a slug,
    a title, a description and a logo. *)
Record website := {
  slug : jsstring;
  title : jsstring;
  description : jsstring;
  logo : jsstring
}.

(** [{ [category: string]: website[] }]: the own properties of the
    object, in the order [Object.keys] lists them. *)
Definition by_category := list (jsstring * list website).

Fixpoint property (o : by_category) (k : jsstring) : option (list website) :=
  match o with
  | [] => None
  | (k', v) :: r => if JsString.eqb k k' then Some v else property r k
  end.

Definition Object_keys (o : by_category) : list jsstring := map fst o.

Definition card (p : website) : node :=
  Elem (Component "Link") (Some (slug p))
    [("href"%string, VString (js "/websites/" ++ slug p))]
    [ el "a" [className "
                "]
        [ el "div" [className "

                bg-scale-100 dark:bg-scale-300
                hover:bg-scale-200 hover:dark:bg-scale-400
                group flex flex-col w-full h-full px-6 py-6 transition-all 
                border rounded 
                shadow 

               
                
                hover:shadow-lg"]
            [ el "div" [className "flex w-full space-x-6"]
                [ el "div" [className "w-10 h-10 transition-all scale-100 group-hover:scale-110"]
                    [ comp "Image"
                        [ attr "layout" "fixed";
                          ("width"%string, VNumber (num_of_N 40));
                          ("height"%string, VNumber (num_of_N 40));
                          className "w-10 h-10 bg-gray-300 rounded-full";
                          ("src"%string, VString (logo p));
                          ("alt"%string, VString (title p)) ] [] ];
                  el "div" []
                    [ el "h3" [className "transition-colors text-xl text-scale-1100 group-hover:text-scale-1200 mb-2"]
                        [Str (title p)];
                      el "p" [className "text-sm text-scale-900"] [Str (description p)] ] ] ] ] ].

Definition header (category : jsstring) : node :=
  el "h2" [className "h2"] [Str category].

Definition grid (cards : list node) : node :=
  el "div" [className "grid  gap-5 grid-cols-1 lg:grid-cols-2 xl:grid-cols-3 lg:max-w-none"]
    [Arr cards].

Definition section (host : Host) (hideCategories : bool)
           (websitesByCategory : by_category) (category : jsstring)
  : completion node :=
  cards <- match property websitesByCategory category with
           | Some ws => Normal (map card ws)
           | None => Throw TypeError
           end ;;
  Normal (Elem (Tag "div") (Some category)
            [ ("id"%string, VString (toLowerCase host category));
              className "space-y-8" ]
            [ unless hideCategories (header category);
              grid cards ]).

(** [hideCategories] is [None] when the caller omits it. *)
Definition WebsiteTileGrid (host : Host) (websitesByCategory : by_category)
           (hideCategories : option bool) : completion node :=
  let hideCategories := default false hideCategories in
  sections <- mapM (section host hideCategories websitesByCategory)
                   (Object_keys websitesByCategory) ;;
  Normal (Elem Fragment None [] [Arr sections]).

End Grid.

(* ================================================================== *)
(** ** The detail page: [WebsitePage] *)
(* ================================================================== *)

Module Page.

(** Lines 89-97: the decoded summary, [null] when there is no
    payload, when the payload is the empty string, and when
    [JSON.parse] throws. *)
Definition parse_simplified_content (host : Host)
           (termsOfService : option TermsOfServiceRow) : value :=
  try_catch
    (match termsOfService with
     | None => Normal VNull
     | Some t =>
         match simplified_content t with
         | None => Normal VNull
         | Some payload =>
             if JsString.truthy payload
             then JSON_parse host payload
             else Normal VNull
         end
     end)
    (fun error => VNull).

Definition summary_entry (kv : jsstring * value) : node :=
  Elem (Tag "p") (Some (fst kv)) []
    [ el "strong" [] [Str (fst kv); Txt ":"]; Txt " "; Val (snd kv) ].

Definition danger_item (danger : value) (index : N) : node :=
  Elem (Tag "li") (Some (JsString.of_N index)) [] [Val danger].

Definition placeholder : node := el "p" [] [Txt "Loading content..."].

(** Lines 129-146: the child of [<div className="prose">]. *)
Definition overview (simplifiedContent : value) : completion node :=
  if truthy simplifiedContent then
    summary <- get simplifiedContent (js "summary") ;;
    entries <- Object_entries summary ;;
    potentialDangers <- get simplifiedContent (js "potentialDangers") ;;
    items <- Array_map potentialDangers danger_item ;;
    overallAssessment <- get simplifiedContent (js "overallAssessment") ;;
    Normal (Elem Fragment None []
              [ el "h3" [] [Txt "Summary"];
                Arr (map summary_entry entries);
                el "h3" [] [Txt "Potential Dangers"];
                el "ul" [] [Arr items];
                el "h3" [] [Txt "Overall Assessment"];
                el "p" [] [Val overallAssessment] ])
  else Normal placeholder.

(** The decoded summaries the overview can show: the falsy ones, and
    those whose [summary] is neither undefined nor null and whose
    [potentialDangers] is an array. *)
Definition displayable (simplifiedContent : value) : bool :=
  negb (truthy simplifiedContent)
  || match get simplifiedContent (js "summary") with
     | Normal VUndefined | Normal VNull | Throw _ => false
     | Normal _ => true
     end
     && match get simplifiedContent (js "potentialDangers") with
        | Normal (VArray _) => true
        | _ => false
        end.

Definition row_class : string * value :=
  className "flex items-center justify-between py-2".
Definition link_class : string * value :=
  className "text-brand-900 transition-colors hover:text-brand-800".
Definition label (s : string) : node :=
  el "span" [className "text-scale-900"] [Txt s].
Definition heading (s : string) : node :=
  el "h2" [ className "text-scale-1200";
            ("style"%string,
             VObject [ (js "fontSize", VString (js "1.5rem"));
                       (js "marginBottom", VString (js "1rem")) ]) ]
     [Txt s].

Definition website_row (website : WebsiteRow) (host_name : jsstring) : node :=
  el "div" [row_class]
    [ label "Website";
      el "a" [ ("href"%string, VString (url website));
               attr "target" "_blank"; attr "rel" "noreferrer"; link_class ]
         [Str host_name] ].

(** [termsOfService?.tos_url || ''] *)
Definition tos_href (termsOfService : option TermsOfServiceRow) : jsstring :=
  match termsOfService with
  | None => []
  | Some t => if JsString.truthy (tos_url t) then tos_url t else []
  end.

Definition tos_row (termsOfService : option TermsOfServiceRow) : node :=
  el "div" [row_class]
    [ label "Terms of Service";
      el "a" [ ("href"%string, VString (tos_href termsOfService));
               attr "target" "_blank"; attr "rel" "noreferrer"; link_class ]
         [ el "span" [className "flex items-center space-x-1"]
             [ el "span" [] [Txt "View"];
               comp "IconExternalLink" [attr "size" "small"] [] ] ] ].

Definition category_row (category : jsstring) : node :=
  el "div" [row_class] [ label "Category"; el "span" [] [Str category] ].

Definition last_crawled_row (host : Host) (last_crawled : jsstring) : node :=
  el "div" [row_class]
    [ label "Last Crawled";
      el "span" [] [Str (Date_toLocaleDateString host last_crawled)] ].

(** Lines 154-182: the children of [<div className="divide-y ...">]. *)
Definition details (host : Host) (website : WebsiteRow)
           (termsOfService : option TermsOfServiceRow) : completion (list node) :=
  host_name <- URL_host host (url website) ;;
  Normal [ website_row website host_name;
           tos_row termsOfService;
           when_string (category website) category_row;
           when_string (last_crawled website) (last_crawled_row host) ].

Definition logo_img (website : WebsiteRow) (logo_svg : jsstring) : node :=
  el "img" [ ("src"%string, VString logo_svg);
             ("alt"%string, VString (site_name website ++ js " logo"));
             className "h-10 w-10" ] [].

(** Lines 99-189: the tree around the overview and the details. *)
Definition page (website : WebsiteRow) (overview : node) (details : list node) : node :=
  Elem Fragment None []
    [ comp "Head" []
        [ el "title" [] [Str (site_name website); Txt " | TOS Buddy"];
          el "meta" [ attr "name" "description";
                      ("content"%string, VString (website_description website)) ] [] ];
      comp "Layout" []
        [ comp "SectionContainer" []
            [ el "div" [className "col-span-12 mx-auto mb-2 max-w-5xl space-y-12 lg:col-span-2"]
                [ comp "Link"
                    [ attr "href" "/websites";
                      className "flex cursor-pointer items-center text-scale-1200 transition-colors hover:text-scale-1000" ]
                    [ comp "IconChevronLeft"
                        [("style"%string, VObject [(js "padding", VNumber (num_of_N 0))])] [];
                      Txt "Back" ];
                  el "div" [className "flex items-center space-x-4"]
                    [ when_string (logo_svg website) (logo_img website);
                      el "h1" [ className "h1";
                                ("style"%string,
                                 VObject [(js "marginBottom", VNumber (num_of_N 0))]) ]
                         [Str (site_name website)] ];
                  el "div" [className "grid gap-3 space-y-16 lg:grid-cols-4 lg:space-y-0"]
                    [ el "div" [className "lg:col-span-3"]
                        [ heading "Overview";
                          el "div" [className "prose"] [overview] ];
                      el "div" []
                        [ heading "Details";
                          el "div" [className "divide-y text-scale-1200"] details ] ] ] ] ] ].

Definition WebsitePage (host : Host) (website : option WebsiteRow)
           (termsOfService : option TermsOfServiceRow) : completion node :=
  match website with
  | None => Normal (comp "NotFound" [] [])
  | Some website =>
      let simplifiedContent := parse_simplified_content host termsOfService in
      ov <- overview simplifiedContent ;;
      rows <- details host website termsOfService ;;
      Normal (page website ov rows)
  end.

End Page.

(* ================================================================== *)
(** ** A decoder for JSON text *)
(* ================================================================== *)

(** [JSON.parse] without a reviver, by recursive descent over the code
    units: the grammar of ECMA-404, members stored in the property order
    of an ordinary object (array indices ascending, then the other keys
    in order of creation; a repeated key overwrites). *)
Module Json.

Definition is_ws (c : N) : bool :=
  ((c =? 32) || (c =? 9) || (c =? 10) || (c =? 13))%N.

Fixpoint skip_ws (s : jsstring) : jsstring :=
  match s with
  | [] => []
  | c :: r => if is_ws c then skip_ws r else s
  end.

Definition is_digit (c : N) : bool := ((48 <=? c) && (c <=? 57))%N.

Definition hex_val (c : N) : option N :=
  if is_digit c then Some (c - 48)%N
  else if ((97 <=? c) && (c <=? 102))%N then Some (c - 87)%N
  else if ((65 <=? c) && (c <=? 70))%N then Some (c - 55)%N
  else None.

Definition hex4 (a b c d : N) : option N :=
  match hex_val a, hex_val b, hex_val c, hex_val d with
  | Some x, Some y, Some z, Some w => Some (((x * 16 + y) * 16 + z) * 16 + w)%N
  | _, _, _, _ => None
  end.

(** The character after a backslash, other than [u]. *)
Definition escape (e : N) : option N :=
  if (e =? 34)%N then Some 34%N            (* quote *)
  else if (e =? 92)%N then Some 92%N       (* backslash *)
  else if (e =? 47)%N then Some 47%N       (* slash *)
  else if (e =? 98)%N then Some 8%N        (* b *)
  else if (e =? 102)%N then Some 12%N      (* f *)
  else if (e =? 110)%N then Some 10%N      (* n *)
  else if (e =? 114)%N then Some 13%N      (* r *)
  else if (e =? 116)%N then Some 9%N       (* t *)
  else None.

(** The rest of a string literal, after its opening quote. *)
Fixpoint parse_string (s : jsstring) (acc : jsstring) : option (jsstring * jsstring) :=
  match s with
  | [] => None
  | c :: r =>
      if (c =? 34)%N then Some (rev acc, r)
      else if (c =? 92)%N then
        match r with
        | [] => None
        | e :: r' =>
            if (e =? 117)%N then
              match r' with
              | h1 :: h2 :: h3 :: h4 :: r'' =>
                  match hex4 h1 h2 h3 h4 with
                  | Some u => parse_string r'' (u :: acc)
                  | None => None
                  end
              | _ => None
              end
            else
              match escape e with
              | Some x => parse_string r' (x :: acc)
              | None => None
              end
        end
      else if (c <? 32)%N then None
      else parse_string r (c :: acc)
  end.

(** The longest prefix of digits, as a number and a digit count. *)
Fixpoint parse_digits (s : jsstring) (acc : Z) (count : Z) : Z * Z * jsstring :=
  match s with
  | c :: r =>
      if is_digit c
      then parse_digits r (acc * 10 + Z.of_N (c - 48)) (count + 1)%Z
      else (acc, count, s)
  | [] => (acc, count, s)
  end.

Definition parse_int (s : jsstring) : option (Z * jsstring) :=
  match s with
  | c :: r =>
      if (c =? 48)%N then Some (0%Z, r)
      else if is_digit c then
        let '(n, _, r') := parse_digits s 0 0 in Some (n, r')
      else None
  | [] => None
  end.

(** [.digits]: the mantissa extended by the digits, and their count. *)
Definition parse_frac (n : Z) (s : jsstring) : option (Z * Z * jsstring) :=
  match s with
  | c :: r =>
      if (c =? 46)%N then
        let '(m, count, r') := parse_digits r n 0 in
        if (count =? 0)%Z then None else Some (m, count, r')
      else Some (n, 0%Z, s)
  | [] => Some (n, 0%Z, s)
  end.

Definition parse_exp (s : jsstring) : option (Z * jsstring) :=
  match s with
  | c :: r =>
      if ((c =? 101) || (c =? 69))%N then
        let '(neg, r1) :=
          match r with
          | sg :: r0 =>
              if (sg =? 45)%N then (true, r0)
              else if (sg =? 43)%N then (false, r0)
              else (false, r)
          | [] => (false, r)
          end in
        let '(e, count, r2) := parse_digits r1 0 0 in
        if (count =? 0)%Z then None
        else Some (if neg then (- e)%Z else e, r2)
      else Some (0%Z, s)
  | [] => Some (0%Z, s)
  end.

Definition parse_number (s : jsstring) : option (jsnumber * jsstring) :=
  let '(neg, s1) :=
    match s with
    | c :: r => if (c =? 45)%N then (true, r) else (false, s)
    | [] => (false, s)
    end in
  match parse_int s1 with
  | None => None
  | Some (n, s2) =>
      match parse_frac n s2 with
      | None => None
      | Some (m, count, s3) =>
          match parse_exp s3 with
          | None => None
          | Some (e, s4) =>
              Some ({| mant := if neg then (- m)%Z else m;
                       exp10 := (e - count)%Z |}, s4)
          end
      end
  end.

(** [s] starts with the code units of [word]; what follows them. *)
Fixpoint expect (word : jsstring) (s : jsstring) : option jsstring :=
  match word, s with
  | [], _ => Some s
  | w :: word', c :: r => if (w =? c)%N then expect word' r else None
  | _ :: _, [] => None
  end.

(** The array index a property key denotes, if it is one: a canonical
    numeral of at most [2^32 - 2]. *)
Definition array_index (k : jsstring) : option N :=
  match k with
  | [] => None
  | c :: r =>
      if forallb is_digit k && ((negb (c =? 48)%N) || (List.length r =? 0)%nat)
         && (List.length k <=? 10)%nat
      then
        let '(n, _, _) := parse_digits k 0 0 in
        if (n <=? 4294967294)%Z then Some (Z.to_N n) else None
      else None
  end.

Fixpoint overwrite (k : jsstring) (v : value) (l : list (jsstring * value))
  : list (jsstring * value) :=
  match l with
  | [] => []
  | (k', v') :: r =>
      if JsString.eqb k k' then (k', v) :: r else (k', v') :: overwrite k v r
  end.

Fixpoint insert_index (i : N) (k : jsstring) (v : value)
         (l : list (jsstring * value)) : list (jsstring * value) :=
  match l with
  | [] => [(k, v)]
  | (k', v') :: r =>
      match array_index k' with
      | Some j => if (j <? i)%N then (k', v') :: insert_index i k v r
                  else (k, v) :: l
      | None => (k, v) :: l
      end
  end.

(** CreateDataProperty on an ordinary object. *)
Definition define (k : jsstring) (v : value) (l : list (jsstring * value))
  : list (jsstring * value) :=
  match lookup k l with
  | Some _ => overwrite k v l
  | None =>
      match array_index k with
      | Some i => insert_index i k v l
      | None => l ++ [(k, v)]
      end
  end.

(** One value at the head of [s], which starts at a token; each
    nested value costs one unit of fuel, each further element or
    member another. *)
Fixpoint parse_value (fuel : nat) (s : jsstring) : option (value * jsstring) :=
  match fuel with
  | O => None
  | S f =>
      match s with
      | [] => None
      | c :: r =>
          if (c =? 123)%N then
            match skip_ws r with
            | [] => None
            | c1 :: r1 =>
                if (c1 =? 125)%N then Some (VObject [], r1)
                else parse_members f (c1 :: r1) []
            end
          else if (c =? 91)%N then
            match skip_ws r with
            | [] => None
            | c1 :: r1 =>
                if (c1 =? 93)%N then Some (VArray [], r1)
                else parse_elements f (c1 :: r1) []
            end
          else if (c =? 34)%N then
            match parse_string r [] with
            | Some (str, r1) => Some (VString str, r1)
            | None => None
            end
          else if (c =? 116)%N then
            option_map (fun r1 => (VBool true, r1)) (expect (js "rue") r)
          else if (c =? 102)%N then
            option_map (fun r1 => (VBool false, r1)) (expect (js "alse") r)
          else if (c =? 110)%N then
            option_map (fun r1 => (VNull, r1)) (expect (js "ull") r)
          else
            match parse_number s with
            | Some (n, r1) => Some (VNumber n, r1)
            | None => None
            end
      end
  end
with parse_elements (fuel : nat) (s : jsstring) (acc : list value)
  : option (value * jsstring) :=
  match fuel with
  | O => None
  | S f =>
      match parse_value f s with
      | None => None
      | Some (v, r) =>
          match skip_ws r with
          | [] => None
          | c :: r1 =>
              if (c =? 44)%N then parse_elements f (skip_ws r1) (v :: acc)
              else if (c =? 93)%N then Some (VArray (rev (v :: acc)), r1)
              else None
          end
      end
  end
with parse_members (fuel : nat) (s : jsstring) (acc : list (jsstring * value))
  : option (value * jsstring) :=
  match fuel with
  | O => None
  | S f =>
      match s with
      | [] => None
      | q :: r =>
          if negb (q =? 34)%N then None else
          match parse_string r [] with
          | None => None
          | Some (k, r1) =>
              match skip_ws r1 with
              | [] => None
              | colon :: r2 =>
                  if negb (colon =? 58)%N then None else
                  match parse_value f (skip_ws r2) with
                  | None => None
                  | Some (v, r3) =>
                      match skip_ws r3 with
                      | [] => None
                      | c :: r4 =>
                          if (c =? 44)%N
                          then parse_members f (skip_ws r4) (define k v acc)
                          else if (c =? 125)%N
                          then Some (VObject (define k v acc), r4)
                          else None
                      end
                  end
              end
          end
      end
  end.

Definition parse (text : jsstring) : completion value :=
  match parse_value (2 * List.length text + 2) (skip_ws text) with
  | Some (v, r) =>
      match skip_ws r with
      | [] => Normal v
      | _ :: _ => Throw SyntaxError
      end
  | None => Throw SyntaxError
  end.

End Json.

(* ================================================================== *)
(** ** A host to run the pages on *)
(* ================================================================== *)

(** A host for evaluating the pages on concrete inputs: [Json.parse],
    and the fragments of [URL], [Date] and [toLowerCase] described at
    each function. The properties below hold on every host. *)
Module Sample.

Definition is_alpha (c : N) : bool :=
  ((97 <=? c) && (c <=? 122) || (65 <=? c) && (c <=? 90))%N.

Definition lower (c : N) : N :=
  if ((65 <=? c) && (c <=? 90))%N then (c + 32)%N else c.

(** [toLowerCase] on ASCII text; other code units are left as they
    are. *)
Definition to_lower_case (s : jsstring) : jsstring := map lower s.

Fixpoint drop_c0 (s : jsstring) : jsstring :=
  match s with
  | [] => []
  | c :: r => if (c <=? 32)%N then drop_c0 r else s
  end.

(** The input of the URL parser: leading and trailing C0 controls and
    spaces stripped, tabs and newlines removed. *)
Definition url_input (s : jsstring) : jsstring :=
  filter (fun c => negb ((c =? 9) || (c =? 10) || (c =? 13))%N)
         (rev (drop_c0 (rev (drop_c0 s)))).

Fixpoint scheme_rest (s : jsstring) (acc : jsstring) : option (jsstring * jsstring) :=
  match s with
  | [] => None
  | c :: r =>
      if (c =? 58)%N then Some (rev acc, r)
      else if is_alpha c || Json.is_digit c || (c =? 43)%N || (c =? 45)%N || (c =? 46)%N
      then scheme_rest r (lower c :: acc)
      else None
  end.

(** [scheme:rest], when the input starts with a scheme. *)
Definition split_scheme (s : jsstring) : option (jsstring * jsstring) :=
  match s with
  | c :: _ => if is_alpha c then scheme_rest s [] else None
  | [] => None
  end.

Fixpoint skip_slashes (s : jsstring) : jsstring :=
  match s with
  | c :: r => if ((c =? 47) || (c =? 92))%N then skip_slashes r else s
  | [] => []
  end.

Fixpoint authority (s : jsstring) : jsstring :=
  match s with
  | c :: r =>
      if ((c =? 47) || (c =? 92) || (c =? 63) || (c =? 35))%N then []
      else c :: authority r
  | [] => []
  end.

(** The labels of a dotted name, the last one first. *)
Fixpoint labels (s : jsstring) (cur : jsstring) (acc : list jsstring) : list jsstring :=
  match s with
  | [] => rev cur :: acc
  | c :: r => if (c =? 46)%N then labels r [] (rev cur :: acc)
              else labels r (c :: cur) acc
  end.

Definition plain_label (l : jsstring) : bool :=
  JsString.truthy l
  && forallb (fun c => ((97 <=? c) && (c <=? 122))%N || Json.is_digit c || (c =? 45)%N) l
  && negb (JsString.eqb (firstn 4 l) (js "xn--")).

(** A lower-case DNS name whose last label is alphabetic: the host
    parser returns such a name as it is. *)
Definition plain_domain (a : jsstring) : bool :=
  match labels a [] [] with
  | last :: others =>
      forallb plain_label (last :: others)
      && forallb (fun c => ((97 <=? c) && (c <=? 122))%N) last
  | [] => false
  end.

(** [new URL(s).host] without a base URL. An input with no scheme,
    and an [http] or [https] URL with an empty authority, are
    rejected as by every host; of the remaining inputs the [http] and
    [https] URLs whose authority is a [plain_domain] are accepted,
    and no other. *)
Definition url_host (s : jsstring) : completion jsstring :=
  match split_scheme (url_input s) with
  | None => Throw TypeError
  | Some (scheme, rest) =>
      if JsString.eqb scheme (js "http") || JsString.eqb scheme (js "https")
      then
        let a := authority (skip_slashes rest) in
        if plain_domain a then Normal a else Throw TypeError
      else Throw TypeError
  end.

Definition two_digits (a b : N) : option N :=
  if Json.is_digit a && Json.is_digit b then Some ((a - 48) * 10 + (b - 48))%N
  else None.

(** [new Date(s).toLocaleDateString()] in the [en-US] locale and the
    UTC time zone, for the date-only form [YYYY-MM-DD] with a year of
    1000 or more and a day that every month has; any other input is
    shown as an invalid date. *)
Definition to_locale_date_string (s : jsstring) : jsstring :=
  match s with
  | [y1; y2; y3; y4; d1; m1; m2; d2; a1; a2] =>
      match two_digits y1 y2, two_digits y3 y4, two_digits m1 m2, two_digits a1 a2 with
      | Some yh, Some yl, Some m, Some d =>
          if ((d1 =? 45) && (d2 =? 45) && (10 <=? yh)
              && (1 <=? m) && (m <=? 12) && (1 <=? d) && (d <=? 28))%N
          then JsString.of_N m ++ js "/" ++ JsString.of_N d ++ js "/"
               ++ JsString.of_N (yh * 100 + yl)
          else js "Invalid Date"
      | _, _, _, _ => js "Invalid Date"
      end
  | _ => js "Invalid Date"
  end.

Definition host : Host := {|
  JSON_parse := Json.parse;
  URL_host := url_host;
  Date_toLocaleDateString := to_locale_date_string;
  toLowerCase := to_lower_case
|}.

(** The code unit of the double quote, and a quoted JSON string. *)
Definition quoted (s : string) : jsstring := 34%N :: js s ++ [34%N].

(** The payload
    [{ summary: { scope: broad }, potentialDangers: [ data sharing ],
       overallAssessment: risky }], every name and text in quotes. *)
Definition payload : jsstring :=
  js "{" ++ quoted "summary" ++ js ":{" ++ quoted "scope" ++ js ":"
     ++ quoted "broad" ++ js "}," ++ quoted "potentialDangers" ++ js ":["
     ++ quoted "data sharing" ++ js "]," ++ quoted "overallAssessment"
     ++ js ":" ++ quoted "risky" ++ js "}".

Definition example_com : WebsiteRow := {|
  id := 7;
  site_name := js "Example";
  website_description := js "An example site";
  logo_svg := None;
  url := js "https://example.com/terms";
  category := Some (js "Tools");
  last_crawled := Some (js "2024-03-05")
|}.

Definition example_tos (content : option jsstring) : TermsOfServiceRow := {|
  tos_id := 1;
  website_id := 7;
  tos_url := js "https://example.com/tos";
  simplified_content := content
|}.

Definition named (s : string) : NameRow.t := {| NameRow.site_name := Some (js s) |}.

(** A store with four website rows, two of which trim to the same
    name and one to the empty string, and no terms-of-service row. *)
Definition store : Supabase := {|
  select_site_names :=
    Resolved (Some [named " Example "; named "Example"; named "   "; named "Other"]) None;
  select_website := fun slug =>
    if JsString.eqb slug (js "Example") then Resolved (Some example_com) None
    else Resolved None (Some {| message := js "no rows" |});
  select_terms_of_service := fun _ =>
    Resolved None (Some {| message := js "no rows" |})
|}.

(** The same store when one more row of the name query has a null
    name. *)
Definition store_with_null : Supabase := {|
  select_site_names :=
    Resolved (Some [named " Example "; named "Example"; named "   "; named "Other";
                    {| NameRow.site_name := None |}]) None;
  select_website := select_website store;
  select_terms_of_service := select_terms_of_service store
|}.

(** The same store when the terms-of-service query is rejected. *)
Definition rejecting_store : Supabase := {|
  select_site_names := select_site_names store;
  select_website := select_website store;
  select_terms_of_service := fun _ => Rejected NetworkError
|}.

(** A website row with a logo. *)
Definition with_logo : WebsiteRow := {|
  id := 9;
  site_name := js "Logo Site";
  website_description := js "A site with a logo";
  logo_svg := Some (js "/logos/site.svg");
  url := js "https://logo.example.org/";
  category := None;
  last_crawled := None
|}.

(** The same store when the name query fails. *)
Definition failing_store : Supabase := {|
  select_site_names := Resolved None (Some {| message := js "timeout" |});
  select_website := select_website store;
  select_terms_of_service := select_terms_of_service store
|}.

(** A website row whose url has no scheme. *)
Definition no_scheme : WebsiteRow := {|
  id := 8;
  site_name := js "Draft";
  website_description := [];
  logo_svg := None;
  url := [];
  category := None;
  last_crawled := None
|}.

Definition tile (s : string) : Grid.website := {|
  Grid.slug := js s;
  Grid.title := js s;
  Grid.description := [];
  Grid.logo := js "/logo.svg"
|}.

Definition tiles : Grid.by_category :=
  [ (js "Tools", [tile "example"; tile "other"]); (js "News", [tile "daily"]) ].

End Sample.

(* ================================================================== *)
(** ** Reference definitions *)
(* ================================================================== *)

(** The values of [xs], each kept at its first occurrence only. *)
Fixpoint first_occurrences (xs : list jsstring) : list jsstring :=
  match xs with
  | [] => []
  | x :: r => x :: filter (fun y => negb (JsString.eqb y x)) (first_occurrences r)
  end.

(** [y] is not among the values seen so far. *)
Definition fresh_in (seen : list jsstring) (y : jsstring) : bool :=
  if in_dec JsString.eq_dec y seen then false else true.

(** A string with no white space at either end. *)
Definition trimmed (s : jsstring) : bool :=
  match s with
  | [] => true
  | c :: r => negb (JsString.is_space c) && negb (JsString.is_space (last r c))
  end.

(** The rows of a name query that answers with the given names. *)
Definition rows_named (names : list jsstring) : list NameRow.t :=
  map (fun n => {| NameRow.site_name := Some n |}) names.

(** [.eq('site_name', slug)] selects by equality: a row the website
    query answers with carries the name that was asked for. *)
Definition exact_match (supabase : Supabase) : Prop :=
  forall slug website,
    select_website supabase slug = Resolved (Some website) None ->
    site_name website = slug.

(* ================================================================== *)
(** * Properties *)
(* ================================================================== *)

Lemma truthy_nonempty (s : jsstring) : JsString.truthy s = true <-> s <> [].
Proof. destruct s; simpl; split; congruence. Qed.

Lemma falsy_empty (s : jsstring) : JsString.truthy s = false <-> s = [].
Proof. destruct s; simpl; split; congruence. Qed.

Lemma eqb_eq (a b : jsstring) : JsString.eqb a b = true <-> a = b.
Proof. unfold JsString.eqb. destruct (list_eq_dec N.eq_dec a b); split; congruence. Qed.

Lemma eqb_refl (a : jsstring) : JsString.eqb a a = true.
Proof. apply eqb_eq. reflexivity. Qed.

(* ------------------------------------------------------------------ *)
(** ** Path discovery *)
(* ------------------------------------------------------------------ *)

Section SetFacts.

Import Paths.

Lemma Set_add_all_In seen xs x :
  In x (Set_add_all seen xs) <-> In x seen \/ In x xs.
Proof.
  revert seen. induction xs as [|y r IH]; intros seen; simpl.
  - tauto.
  - destruct (in_dec JsString.eq_dec y seen) as [Hin|Hout]; rewrite IH.
    + split; [tauto|]. intros [H|[->|H]]; auto.
    + rewrite in_app_iff. simpl. tauto.
Qed.

Lemma Set_add_all_NoDup seen xs :
  NoDup seen -> NoDup (Set_add_all seen xs).
Proof.
  revert seen. induction xs as [|y r IH]; intros seen Hseen; simpl; auto.
  destruct (in_dec JsString.eq_dec y seen) as [Hin|Hout]; apply IH; auto.
  apply NoDup_app; auto.
  - constructor; [simpl; tauto | constructor].
  - intros a Ha [<-|[]]. contradiction.
Qed.

Lemma Array_from_Set_In xs x : In x (Array_from_Set xs) <-> In x xs.
Proof. unfold Array_from_Set. rewrite Set_add_all_In. simpl. tauto. Qed.

Lemma Array_from_Set_NoDup xs : NoDup (Array_from_Set xs).
Proof. apply Set_add_all_NoDup. constructor. Qed.

(** The first element of a set-built list is the first value given. *)
Lemma Set_add_all_prefix seen xs :
  exists tail, Set_add_all seen xs = seen ++ tail.
Proof.
  revert seen. induction xs as [|y r IH]; intros seen; simpl.
  - exists []. now rewrite app_nil_r.
  - destruct (in_dec JsString.eq_dec y seen).
    + apply IH.
    + destruct (IH (seen ++ [y])) as [tail ->].
      exists (y :: tail). now rewrite <- app_assoc.
Qed.

Lemma slugs_of_paths (l : list jsstring) :
  map slug (map (fun slug => {| slug := slug |}) l) = l.
Proof. induction l; simpl; congruence. Qed.

Lemma mapM_trimmed websites :
  mapM (fun website => s <- trimmed_name website ;; Normal {| slug := s |}) websites
  = match names_of websites with
    | Some names => Normal (map (fun name => {| slug := JsString.trim name |}) names)
    | None => Throw TypeError
    end.
Proof.
  induction websites as [|w r IH]; [reflexivity|].
  cbn [mapM names_of]. rewrite IH. unfold trimmed_name.
  destruct (NameRow.site_name w); simpl; [destruct (names_of r)|]; reflexivity.
Qed.

Lemma names_of_rows_named names : names_of (rows_named names) = Some names.
Proof. induction names as [|n r IH]; simpl; [reflexivity|]. now rewrite IH. Qed.

Lemma names_of_Some websites names :
  names_of websites = Some names -> websites = rows_named names.
Proof.
  revert names. induction websites as [|[[n|]] r IH]; simpl; intros names H.
  - injection H as <-. reflexivity.
  - destruct (names_of r) as [ns|]; [|discriminate].
    injection H as <-. simpl. now rewrite (IH ns eq_refl).
  - discriminate.
Qed.

Lemma names_of_None websites :
  names_of websites = None <-> In {| NameRow.site_name := None |} websites.
Proof.
  induction websites as [|[[n|]] r IH]; simpl.
  - split; [discriminate | tauto].
  - destruct (names_of r) as [ns|].
    + split; [discriminate|]. intros [H|H]; [discriminate|].
      apply IH in H. discriminate.
    + split; [|reflexivity]. intros _. right. now apply IH.
  - split; [auto | reflexivity].
Qed.

Lemma In_rows_named names row :
  In row (rows_named names) <-> exists n, In n names /\ NameRow.site_name row = Some n.
Proof.
  unfold rows_named. rewrite in_map_iff. split.
  - intros [n [<- Hn]]. eauto.
  - intros [n [Hn Hrow]]. exists n. split; [|exact Hn].
    destruct row as [name]. simpl in Hrow. now subst.
Qed.

Lemma slugs_resolved supabase websites names :
  select_site_names supabase = Resolved (Some websites) None ->
  names_of websites = Some names ->
  slugs (getStaticPaths supabase) = keys_of names.
Proof.
  intros H Hn. unfold getStaticPaths, getStaticPaths_body, slugs. rewrite H.
  rewrite mapM_trimmed, Hn. simpl. apply slugs_of_paths.
Qed.

Lemma slugs_null supabase websites :
  select_site_names supabase = Resolved (Some websites) None ->
  names_of websites = None ->
  paths (getStaticPaths supabase) = [].
Proof.
  intros H Hn. unfold getStaticPaths, getStaticPaths_body. rewrite H.
  rewrite mapM_trimmed, Hn. reflexivity.
Qed.

Lemma slugs_otherwise supabase :
  (forall websites, select_site_names supabase <> Resolved (Some websites) None) ->
  paths (getStaticPaths supabase) = [].
Proof.
  intros H. unfold getStaticPaths, getStaticPaths_body.
  destruct (select_site_names supabase) as [e|[websites|] [err|]]; simpl; auto.
  now destruct (H websites).
Qed.

(** The route keys are those of the names of a resolved answer without
    a null name, and there is none in every other case. *)
Lemma slugs_cases supabase :
  (exists websites names,
     select_site_names supabase = Resolved (Some websites) None /\
     names_of websites = Some names /\
     slugs (getStaticPaths supabase) = keys_of names) \/
  slugs (getStaticPaths supabase) = [].
Proof.
  destruct (select_site_names supabase) as [e|[websites|] [err|]] eqn:Hq;
    try (right; unfold slugs; rewrite slugs_otherwise;
         [reflexivity | rewrite Hq; intros; discriminate]).
  destruct (names_of websites) as [names|] eqn:Hn.
  - left. exists websites, names. repeat split; auto. now apply slugs_resolved with websites.
  - right. unfold slugs. now rewrite (slugs_null _ Hq Hn).
Qed.

Lemma keys_of_In names key :
  In key (keys_of names) <->
  key <> [] /\ exists name, In name names /\ key = JsString.trim name.
Proof.
  unfold keys_of. rewrite Array_from_Set_In, in_map_iff. split.
  - intros [p [<- Hp]]. apply filter_In in Hp. destruct Hp as [Hp Ht].
    apply in_map_iff in Hp. destruct Hp as [name [<- Hname]]. simpl in *.
    split; [now apply truthy_nonempty | eauto].
  - intros [Hne [name [Hname ->]]].
    exists {| slug := JsString.trim name |}. split; auto.
    apply filter_In. split.
    + apply in_map_iff. eauto.
    + simpl. now apply truthy_nonempty.
Qed.

End SetFacts.

(** C1. Every route key that path discovery returns is the trimmed name
    of a row of the name query and is not the empty string; the keys are
    pairwise distinct. When no row of the answer has a null name, the
    trimmed name of a row, when not empty, is among the keys exactly
    once, however many rows trim to it; when some row has a null name,
    there is no route key at all. *)
Theorem getStaticPaths_route_keys (supabase : Supabase) :
  let keys := Paths.slugs (Paths.getStaticPaths supabase) in
  (forall key, In key keys ->
     key <> [] /\
     exists websites row name,
       select_site_names supabase = Resolved (Some websites) None /\
       In row websites /\ NameRow.site_name row = Some name /\
       key = JsString.trim name) /\
  NoDup keys /\
  (forall websites row name,
     select_site_names supabase = Resolved (Some websites) None ->
     (forall r, In r websites -> NameRow.site_name r <> None) ->
     In row websites ->
     NameRow.site_name row = Some name ->
     JsString.trim name <> [] ->
     count_occ JsString.eq_dec keys (JsString.trim name) = 1) /\
  (forall websites,
     select_site_names supabase = Resolved (Some websites) None ->
     In {| NameRow.site_name := None |} websites ->
     keys = []).
Proof.
  intros keys. subst keys. split; [|split; [|split]].
  - intros key Hkey.
    destruct (slugs_cases supabase) as [[websites [names [Hq [Hn Hs]]]]|Hs];
      rewrite Hs in Hkey; [|destruct Hkey].
    apply keys_of_In in Hkey. destruct Hkey as [Hne [name [Hname ->]]].
    split; [exact Hne|]. exists websites, {| NameRow.site_name := Some name |}, name.
    repeat split; auto.
    rewrite (names_of_Some _ Hn). apply In_rows_named. eauto.
  - destruct (slugs_cases supabase) as [[websites [names [_ [_ Hs]]]]|Hs]; rewrite Hs.
    + apply Array_from_Set_NoDup.
    + constructor.
  - intros websites row name Hq Hall Hrow Hname Hne.
    destruct (Paths.names_of websites) as [names|] eqn:Hn.
    + rewrite (slugs_resolved _ Hq Hn).
      apply NoDup_count_occ'; [apply Array_from_Set_NoDup|].
      apply keys_of_In. split; [exact Hne|]. exists name. split; [|reflexivity].
      rewrite (names_of_Some _ Hn) in Hrow. apply In_rows_named in Hrow.
      destruct Hrow as [n [Hin Hn']]. congruence.
    + apply names_of_None in Hn. now destruct (Hall _ Hn).
  - intros websites Hq Hnull. apply names_of_None in Hnull.
    unfold Paths.slugs. now rewrite (slugs_null _ Hq Hnull).
Qed.

(** Two rows that trim to the same name, and one that trims to the
    empty string: one key for the first two, none for the third. *)
Lemma getStaticPaths_route_keys_witness :
  Paths.slugs (Paths.getStaticPaths Sample.store) = [js "Example"; js "Other"] /\
  count_occ JsString.eq_dec (Paths.slugs (Paths.getStaticPaths Sample.store))
            (JsString.trim (js " Example ")) = 1.
Proof.
  split; [reflexivity|].
  apply (proj1 (proj2 (proj2 (getStaticPaths_route_keys Sample.store)))
           [Sample.named " Example "; Sample.named "Example";
            Sample.named "   "; Sample.named "Other"]
           (Sample.named " Example ")).
  - reflexivity.
  - simpl. intros r [<-|[<-|[<-|[<-|[]]]]]; discriminate.
  - simpl. auto.
  - reflexivity.
  - vm_compute. discriminate.
Defined.

(** Two rows that trim to the same name and a row with a null name:
    the name query succeeds, and there is no route key for them. *)
Lemma null_name_no_route_key :
  select_site_names Sample.store_with_null
  = Resolved (Some [ Sample.named " Example "; Sample.named "Example";
                     Sample.named "   "; Sample.named "Other";
                     {| NameRow.site_name := None |} ]) None /\
  Paths.slugs (Paths.getStaticPaths Sample.store_with_null) = [] /\
  count_occ JsString.eq_dec (Paths.slugs (Paths.getStaticPaths Sample.store_with_null))
            (JsString.trim (js " Example ")) = 0.
Proof. repeat split; reflexivity. Qed.

(** C6. The fallback flag of path discovery is ['blocking'] whatever the
    name query gives; and when the query is rejected, resolves with an
    error, with no data or with no row, the route set is empty. *)
Theorem getStaticPaths_degrades (supabase : Supabase) :
  Paths.fallback (Paths.getStaticPaths supabase) = Paths.blocking /\
  ((exists e, select_site_names supabase = Rejected e) \/
   (exists data err, select_site_names supabase = Resolved data (Some err)) \/
   select_site_names supabase = Resolved None None \/
   select_site_names supabase = Resolved (Some []) None ->
   Paths.paths (Paths.getStaticPaths supabase) = []).
Proof.
  unfold Paths.getStaticPaths, Paths.getStaticPaths_body. split.
  - destruct (select_site_names supabase) as [e|[websites|] [err|]]; try reflexivity.
    destruct (mapM (fun website =>
                      s <- Paths.trimmed_name website ;; Normal {| Paths.slug := s |})
                   websites); reflexivity.
  - intros [[e H]|[[data [err H]]|[H|H]]]; rewrite H; reflexivity.
Qed.

Lemma getStaticPaths_degrades_witness :
  Paths.getStaticPaths Sample.failing_store
  = {| Paths.paths := []; Paths.fallback := Paths.blocking |} /\
  Paths.fallback (Paths.getStaticPaths Sample.store) = Paths.blocking.
Proof.
  pose proof (getStaticPaths_degrades Sample.failing_store) as [Hflag Hpaths].
  split; [|exact (proj1 (getStaticPaths_degrades Sample.store))].
  assert (Hempty : Paths.paths (Paths.getStaticPaths Sample.failing_store) = []).
  { apply Hpaths. right; left.
    exists None, {| message := js "timeout" |}. reflexivity. }
  destruct (Paths.getStaticPaths Sample.failing_store) as [p f].
  simpl in *. now subst.
Defined.

(* ------------------------------------------------------------------ *)
(** ** Prop resolution *)
(* ------------------------------------------------------------------ *)

(** C3. For a non-empty route key whose website query gives a row:
    when the terms-of-service query resolves with an error, prop
    resolution returns the props of that row with the terms of service
    null; when the terms-of-service query is rejected, the result is
    not-found. *)
Theorem getStaticProps_tos_error
        (supabase : Supabase) (slug : jsstring) (website : WebsiteRow) :
  slug <> [] ->
  select_website supabase slug = Resolved (Some website) None ->
  (forall data err,
     select_terms_of_service supabase (id website) = Resolved data (Some err) ->
     exists revalidate,
       Props.getStaticProps supabase (Some {| Props.slug := Some slug |})
       = Props.props website None revalidate) /\
  (forall e,
     select_terms_of_service supabase (id website) = Rejected e ->
     Props.getStaticProps supabase (Some {| Props.slug := Some slug |})
     = Props.notFound).
Proof.
  intros Hslug Hw. apply truthy_nonempty in Hslug.
  unfold Props.getStaticProps, Props.getStaticProps_body. simpl.
  rewrite Hslug. simpl. rewrite Hw. split.
  - intros data err Ht. exists None. rewrite Ht. reflexivity.
  - intros e Ht. rewrite Ht. reflexivity.
Qed.

Lemma getStaticProps_tos_error_witness :
  (exists revalidate,
     Props.getStaticProps Sample.store (Some {| Props.slug := Some (js "Example") |})
     = Props.props Sample.example_com None revalidate) /\
  Props.getStaticProps Sample.rejecting_store
    (Some {| Props.slug := Some (js "Example") |})
  = Props.notFound.
Proof.
  assert (Hne : js "Example" <> []) by (vm_compute; discriminate).
  split.
  - apply (proj1 (@getStaticProps_tos_error Sample.store (js "Example")
                    Sample.example_com Hne eq_refl)
             None {| message := js "no rows" |}).
    reflexivity.
  - apply (proj2 (@getStaticProps_tos_error Sample.rejecting_store (js "Example")
                    Sample.example_com Hne eq_refl)
             NetworkError).
    reflexivity.
Defined.

(** The website query gives the row and the terms-of-service query is
    rejected: the result is not-found, not a props bundle. *)
Lemma rejected_tos_query_not_found :
  select_website Sample.rejecting_store (js "Example")
  = Resolved (Some Sample.example_com) None /\
  select_terms_of_service Sample.rejecting_store (id Sample.example_com)
  = Rejected NetworkError /\
  Props.getStaticProps Sample.rejecting_store
    (Some {| Props.slug := Some (js "Example") |})
  = Props.notFound.
Proof. repeat split; reflexivity. Qed.

(** The revalidation interval of a result, when it is a props bundle
    that carries one. *)
Lemma getStaticProps_revalidate_full supabase slug website data :
  slug <> [] ->
  select_website supabase slug = Resolved (Some website) None ->
  select_terms_of_service supabase (id website) = Resolved data None ->
  Props.getStaticProps supabase (Some {| Props.slug := Some slug |})
  = Props.props website data (Some 18000%N).
Proof.
  intros Hslug Hw Ht.
  unfold Props.getStaticProps, Props.getStaticProps_body. simpl.
  apply truthy_nonempty in Hslug. rewrite Hslug. simpl.
  rewrite Hw, Ht. reflexivity.
Qed.

(** C4. On the path where the terms-of-service query resolves with an
    error, the props bundle carries no revalidation interval: the
    result for the route [Example] of the sample store has none. *)
Theorem getStaticProps_tos_error_not_revalidated :
  Props.getStaticProps Sample.store (Some {| Props.slug := Some (js "Example") |})
  = Props.props Sample.example_com None None.
Proof. reflexivity. Qed.

(* ------------------------------------------------------------------ *)
(** ** The layout wrapper *)
(* ------------------------------------------------------------------ *)

(** C10. The wrapper is a fragment of a header slot and a column that
    holds the main content and a footer slot. With [hideFooter] not
    given the footer slot holds [false]; with [hideHeader] not given
    the header slot holds the navigation; and the footer slot holds the
    footer exactly when [hideFooter] is given as [false]. *)
Theorem Layout_defaults (p : LayoutComponent.LayoutProps) :
  exists header footer,
    LayoutComponent.Layout p
    = Elem Fragment None []
        [ header;
          el "div" [className "flex flex-col min-h-screen"]
            [ el "main" [className "flex-grow"] [LayoutComponent.children p];
              footer ] ] /\
    (LayoutComponent.hideFooter p = None -> footer = Val (VBool false)) /\
    (LayoutComponent.hideHeader p = None -> header = comp "Nav" [] []) /\
    (footer = el "div" [className "mt-auto"] [comp "Footer" [] []]
     <-> LayoutComponent.hideFooter p = Some false).
Proof.
  destruct p as [hh hf children]. simpl.
  exists (unless (default false hh) (comp "Nav" [] [])),
         (unless (default true hf) (el "div" [className "mt-auto"] [comp "Footer" [] []])).
  split; [reflexivity|]. split; [|split].
  - intros ->. reflexivity.
  - intros ->. reflexivity.
  - destruct hf as [[|]|]; simpl; split; intros H; try discriminate; reflexivity.
Qed.

Lemma Layout_defaults_witness :
  exists header footer,
    LayoutComponent.Layout
      {| LayoutComponent.hideHeader := None;
         LayoutComponent.hideFooter := None;
         LayoutComponent.children := Txt "page" |}
    = Elem Fragment None []
        [ header;
          el "div" [className "flex flex-col min-h-screen"]
            [ el "main" [className "flex-grow"] [Txt "page"]; footer ] ] /\
    footer = Val (VBool false) /\ header = comp "Nav" [] [].
Proof.
  destruct (Layout_defaults
              {| LayoutComponent.hideHeader := None;
                 LayoutComponent.hideFooter := None;
                 LayoutComponent.children := Txt "page" |})
    as [header [footer [Heq [Hf [Hh _]]]]].
  exists header, footer. simpl in *. auto.
Defined.

(* ------------------------------------------------------------------ *)
(** ** The detail page *)
(* ------------------------------------------------------------------ *)

Lemma occurs_nth n ty k attrs children i x :
  nth_error children i = Some x -> occurs n x -> occurs n (Elem ty k attrs children).
Proof. intros H Hx. eapply occurs_child; eauto. eapply nth_error_In; eauto. Qed.

Lemma occurs_item_nth n items i x :
  nth_error items i = Some x -> occurs n x -> occurs n (Arr items).
Proof. intros H Hx. eapply occurs_item; eauto. eapply nth_error_In; eauto. Qed.

Ltac child k := eapply (fun n ty key attrs children x => @occurs_nth n ty key attrs children k x); [reflexivity|].
Ltac item k := eapply (fun n items x => @occurs_item_nth n items k x); [reflexivity|].

Section PageFacts.

Import Page.
Variable host : Host.

Lemma occurs_page_overview n website ov rows :
  occurs n ov -> occurs n (page website ov rows).
Proof.
  intros H. unfold page.
  child 1%nat. child 0%nat. child 0%nat. child 2%nat. child 0%nat. child 1%nat.
  child 0%nat. exact H.
Qed.


Lemma overview_falsy sc : truthy sc = false -> overview sc = Normal placeholder.
Proof. intros H. unfold overview. now rewrite H. Qed.

Lemma parse_no_payload : parse_simplified_content host None = VNull.
Proof. reflexivity. Qed.

Lemma parse_payload tos payload :
  simplified_content tos = Some payload ->
  payload <> [] ->
  parse_simplified_content host (Some tos)
  = try_catch (JSON_parse host payload) (fun _ => VNull).
Proof.
  intros Hp Hne. unfold parse_simplified_content. rewrite Hp.
  apply truthy_nonempty in Hne. now rewrite Hne.
Qed.

Lemma parse_malformed tos payload e :
  simplified_content tos = Some payload ->
  JSON_parse host payload = Throw e ->
  parse_simplified_content host (Some tos) = VNull.
Proof.
  intros Hp He. unfold parse_simplified_content. rewrite Hp.
  destruct (JsString.truthy payload); [rewrite He|]; reflexivity.
Qed.

Lemma WebsitePage_normal website tos ov h :
  overview (parse_simplified_content host tos) = Normal ov ->
  URL_host host (url website) = Normal h ->
  WebsitePage host (Some website) tos
  = Normal (page website ov
              [ website_row website h; tos_row tos;
                when_string (category website) category_row;
                when_string (last_crawled website) (last_crawled_row host) ]).
Proof.
  intros Hov Hh. unfold WebsitePage, details. rewrite Hov, Hh. reflexivity.
Qed.

Lemma overview_displayable sc :
  (exists ov, overview sc = Normal ov) <-> displayable sc = true.
Proof.
  unfold overview, displayable.
  destruct (truthy sc) eqn:Ht; simpl; [|split; eauto].
  destruct sc as [| |b|n|s|items|members]; simpl in *; try discriminate;
    try (split; [intros [ov H]; discriminate | discriminate]).
  destruct (lookup (js "summary") members) as [[| |b|n|s|items|ms]|]; simpl;
    try (split; [intros [ov H]; discriminate | discriminate]);
    destruct (lookup (js "potentialDangers") members) as [[| |b'|n'|s'|items'|ms']|];
    simpl;
    try (split; [intros [ov H]; discriminate | discriminate]);
    destruct (lookup (js "overallAssessment") members); simpl;
    split; eauto.
Qed.

End PageFacts.

(** C2. A payload that [JSON.parse] rejects leaves the decoded summary
    null and the overview is the placeholder; the page is then the
    tree around that placeholder when the URL constructor accepts the
    url of the website, and the exception of the URL constructor
    otherwise. *)
Theorem malformed_payload_placeholder
        (host : Host) (website : WebsiteRow) (tos : TermsOfServiceRow)
        (payload : jsstring) (e : js_error) :
  simplified_content tos = Some payload ->
  JSON_parse host payload = Throw e ->
  Page.parse_simplified_content host (Some tos) = VNull /\
  Page.overview (Page.parse_simplified_content host (Some tos))
  = Normal (el "p" [] [Txt "Loading content..."]) /\
  (forall h, URL_host host (url website) = Normal h ->
     exists rows,
       Page.WebsitePage host (Some website) (Some tos)
       = Normal (Page.page website (el "p" [] [Txt "Loading content..."]) rows)) /\
  (forall e', URL_host host (url website) = Throw e' ->
     Page.WebsitePage host (Some website) (Some tos) = Throw e').
Proof.
  intros Hp He.
  pose proof (parse_malformed host tos Hp He) as Hnull.
  rewrite Hnull. repeat split; auto.
  - intros h Hh. eexists.
    apply WebsitePage_normal; [rewrite Hnull; reflexivity | exact Hh].
  - intros e' He'. unfold Page.WebsitePage, Page.details.
    rewrite Hnull, He'. reflexivity.
Qed.

Lemma malformed_payload_placeholder_witness :
  Page.parse_simplified_content Sample.host
    (Some (Sample.example_tos (Some (js "{ summary")))) = VNull /\
  exists rows,
    Page.WebsitePage Sample.host (Some Sample.example_com)
      (Some (Sample.example_tos (Some (js "{ summary"))))
    = Normal (Page.page Sample.example_com (el "p" [] [Txt "Loading content..."]) rows).
Proof.
  destruct (@malformed_payload_placeholder Sample.host Sample.example_com
              (Sample.example_tos (Some (js "{ summary"))) (js "{ summary")
              SyntaxError eq_refl eq_refl) as [Hnull [_ [Hpage _]]].
  split; [exact Hnull|].
  apply (Hpage (js "example.com")). reflexivity.
Defined.

(** A malformed payload on a website row whose url has no scheme: the
    decoder throws, and so does the page. *)
Lemma malformed_payload_page_throws :
  JSON_parse Sample.host (js "{ summary") = Throw SyntaxError /\
  URL_host Sample.host (url Sample.no_scheme) = Throw TypeError /\
  Page.WebsitePage Sample.host (Some Sample.no_scheme)
    (Some (Sample.example_tos (Some (js "{ summary")))) = Throw TypeError.
Proof. repeat split; reflexivity. Qed.

(** C5. Without a website the page is the not-found view. With one,
    the page evaluates to a tree exactly when the decoded summary is
    displayable (falsy, or with a [summary] that is neither undefined
    nor null and an array of [potentialDangers]) and the URL
    constructor accepts the url of the website. *)
Theorem WebsitePage_returns_iff
        (host : Host) (website : WebsiteRow) (tos : option TermsOfServiceRow) :
  Page.WebsitePage host None tos = Normal (comp "NotFound" [] []) /\
  ((exists tree, Page.WebsitePage host (Some website) tos = Normal tree) <->
   Page.displayable (Page.parse_simplified_content host tos) = true /\
   exists h, URL_host host (url website) = Normal h).
Proof.
  split; [reflexivity|]. rewrite <- overview_displayable. split.
  - intros [tree H]. unfold Page.WebsitePage, Page.details in H.
    destruct (Page.overview (Page.parse_simplified_content host tos)) as [ov|e];
      simpl in H; [|discriminate].
    destruct (URL_host host (url website)) as [h|e]; simpl in H; [|discriminate].
    eauto.
  - intros [[ov Hov] [h Hh]]. eexists. apply WebsitePage_normal; eauto.
Qed.

Lemma WebsitePage_returns_iff_witness :
  exists tree,
    Page.WebsitePage Sample.host (Some Sample.example_com)
      (Some (Sample.example_tos (Some Sample.payload))) = Normal tree.
Proof.
  apply (proj2 (WebsitePage_returns_iff Sample.host Sample.example_com
                  (Some (Sample.example_tos (Some Sample.payload))))).
  split; [vm_compute; reflexivity|].
  exists (js "example.com"). reflexivity.
Defined.

(** The page throws on a payload that decodes to an object without a
    [summary], and on a website row whose url has no scheme. *)
Lemma WebsitePage_throws :
  JSON_parse Sample.host (js "{}") = Normal (VObject []) /\
  Page.WebsitePage Sample.host (Some Sample.example_com)
    (Some (Sample.example_tos (Some (js "{}")))) = Throw TypeError /\
  Page.WebsitePage Sample.host (Some Sample.no_scheme) None = Throw TypeError.
Proof. repeat split; reflexivity. Qed.

(** C7. When the payload of the terms-of-service record decodes to an
    object whose [summary] is [{ scope: broad }], whose
    [potentialDangers] is [[data sharing]] and whose [overallAssessment]
    is [risky], every tree the page evaluates to contains the paragraph
    with the label [scope:] and the value [broad], the list item
    [data sharing] and the paragraph [risky]; and the page does
    evaluate to a tree when the URL constructor accepts the url of the
    website. *)
Theorem WebsitePage_shows_summary
        (host : Host) (website : WebsiteRow) (tos : TermsOfServiceRow)
        (payload : jsstring) (members : list (jsstring * value)) :
  simplified_content tos = Some payload ->
  payload <> [] ->
  JSON_parse host payload = Normal (VObject members) ->
  lookup (js "summary") members = Some (VObject [(js "scope", VString (js "broad"))]) ->
  lookup (js "potentialDangers") members = Some (VArray [VString (js "data sharing")]) ->
  lookup (js "overallAssessment") members = Some (VString (js "risky")) ->
  (forall tree,
     Page.WebsitePage host (Some website) (Some tos) = Normal tree ->
     occurs (Elem (Tag "p") (Some (js "scope")) []
               [ el "strong" [] [Txt "scope"; Txt ":"]; Txt " "; Txt "broad" ]) tree /\
     occurs (Elem (Tag "li") (Some (js "0")) [] [Txt "data sharing"]) tree /\
     occurs (el "p" [] [Txt "risky"]) tree) /\
  (forall h, URL_host host (url website) = Normal h ->
     exists tree, Page.WebsitePage host (Some website) (Some tos) = Normal tree).
Proof.
  intros Hp Hne Hparse Hs Hd Ha.
  assert (Hov : exists ov,
             Page.overview (Page.parse_simplified_content host (Some tos)) = Normal ov /\
             occurs (Elem (Tag "p") (Some (js "scope")) []
                       [ el "strong" [] [Txt "scope"; Txt ":"]; Txt " "; Txt "broad" ]) ov /\
             occurs (Elem (Tag "li") (Some (js "0")) [] [Txt "data sharing"]) ov /\
             occurs (el "p" [] [Txt "risky"]) ov).
  { rewrite (parse_payload host tos Hp Hne), Hparse.
    unfold Page.overview, get. cbn [try_catch truthy].
    rewrite Hs, Hd, Ha. cbn [bind Object_entries Array_map indexed map fst snd].
    eexists. split; [reflexivity|]. repeat split.
    - child 1%nat. item 0%nat. apply occurs_here.
    - child 3%nat. child 0%nat. item 0%nat. apply occurs_here.
    - child 5%nat. apply occurs_here. }
  destruct Hov as [ov [Hov [H1 [H2 H3]]]]. split.
  - intros tree Htree. unfold Page.WebsitePage, Page.details in Htree.
    rewrite Hov in Htree. simpl in Htree.
    destruct (URL_host host (url website)) as [h|e]; simpl in Htree; [|discriminate].
    injection Htree as <-.
    repeat split; apply occurs_page_overview; assumption.
  - intros h Hh. eexists. apply WebsitePage_normal; eauto.
Qed.

Lemma WebsitePage_shows_summary_witness :
  exists tree,
    Page.WebsitePage Sample.host (Some Sample.example_com)
      (Some (Sample.example_tos (Some Sample.payload))) = Normal tree /\
    occurs (Elem (Tag "p") (Some (js "scope")) []
              [ el "strong" [] [Txt "scope"; Txt ":"]; Txt " "; Txt "broad" ]) tree /\
    occurs (Elem (Tag "li") (Some (js "0")) [] [Txt "data sharing"]) tree /\
    occurs (el "p" [] [Txt "risky"]) tree.
Proof.
  assert (Hne : Sample.payload <> []) by (vm_compute; discriminate).
  destruct (@WebsitePage_shows_summary Sample.host Sample.example_com
              (Sample.example_tos (Some Sample.payload)) Sample.payload
              [ (js "summary", VObject [(js "scope", VString (js "broad"))]);
                (js "potentialDangers", VArray [VString (js "data sharing")]);
                (js "overallAssessment", VString (js "risky")) ]
              eq_refl Hne eq_refl eq_refl eq_refl eq_refl) as [Hin Hex].
  destruct (Hex (js "example.com") eq_refl) as [tree Htree].
  exists tree. split; [exact Htree | exact (Hin tree Htree)].
Defined.




(* ------------------------------------------------------------------ *)
(** ** The listing grid *)
(* ------------------------------------------------------------------ *)

Section GridFacts.

Import Grid.
Variable host : Host.

Lemma property_of_key o c :
  In c (Object_keys o) -> exists ws, property o c = Some ws.
Proof.
  induction o as [|[k v] r IH]; simpl; [tauto|].
  intros H. destruct (JsString.eqb c k) eqn:E; [eauto|].
  destruct H as [->|H]; [|auto]. now rewrite eqb_refl in E.
Qed.

Lemma property_of_member o c ws :
  NoDup (Object_keys o) -> In (c, ws) o -> property o c = Some ws.
Proof.
  induction o as [|[k v] r IH]; simpl; [tauto|].
  intros Hnd [H|H].
  - injection H as -> ->. now rewrite eqb_refl.
  - inversion Hnd as [|? ? Hk Hr]; subst.
    destruct (JsString.eqb c k) eqn:E; [|auto].
    apply eqb_eq in E. subst. destruct Hk.
    apply in_map_iff. exists (k, ws). auto.
Qed.

Lemma mapM_Forall2 {A B} (f : A -> completion B) (R : A -> B -> Prop) l :
  (forall x, In x l -> exists y, f x = Normal y /\ R x y) ->
  exists ys, mapM f l = Normal ys /\ Forall2 R l ys.
Proof.
  induction l as [|x r IH]; intros H; simpl.
  - exists []. split; [reflexivity | constructor].
  - destruct (H x (or_introl eq_refl)) as [y [Hy HR]].
    destruct IH as [ys [Hys HF]]; [intros; apply H; now right|].
    exists (y :: ys). rewrite Hy, Hys. split; [reflexivity | now constructor].
Qed.

Lemma card_no_header p : has_tag "h2" (card p) = false.
Proof. reflexivity. Qed.

Lemma cards_no_header ws : existsb (has_tag "h2") (map card ws) = false.
Proof. induction ws as [|p r IH]; simpl; auto. Qed.

Lemma Forall2_In_l {A B} (R : A -> B -> Prop) l ys x :
  Forall2 R l ys -> In x l -> exists y, In y ys /\ R x y.
Proof.
  induction 1 as [|a b l' ys' Hab HF IH]; simpl; [tauto|].
  intros [->|H]; [eauto|]. destruct (IH H) as [y [Hy HR]]. eauto.
Qed.

End GridFacts.

(** C9. With [hideCategories] true the grid evaluates to a fragment of
    one section per category, none of whose elements is an [<h2>]
    header: each section holds [false] in the header slot and a grid
    with one card per record of the category, in order. A card is a
    link to [/websites/] followed by the slug of its record. *)
Theorem WebsiteTileGrid_hidden_categories
        (host : Host) (websitesByCategory : Grid.by_category) :
  exists sections,
    Grid.WebsiteTileGrid host websitesByCategory (Some true)
    = Normal (Elem Fragment None [] [Arr sections]) /\
    has_tag "h2" (Elem Fragment None [] [Arr sections]) = false /\
    Forall2
      (fun category sec =>
         exists ws,
           Grid.property websitesByCategory category = Some ws /\
           sec = Elem (Tag "div") (Some category)
                   [ ("id"%string, VString (toLowerCase host category));
                     className "space-y-8" ]
                   [ Val (VBool false);
                     el "div"
                        [className "grid  gap-5 grid-cols-1 lg:grid-cols-2 xl:grid-cols-3 lg:max-w-none"]
                        [Arr (map Grid.card ws)] ])
      (Grid.Object_keys websitesByCategory) sections /\
    (NoDup (Grid.Object_keys websitesByCategory) ->
     forall category ws p,
       In (category, ws) websitesByCategory -> In p ws ->
       exists sec cards,
         In sec sections /\
         sec = Elem (Tag "div") (Some category)
                 [ ("id"%string, VString (toLowerCase host category));
                   className "space-y-8" ]
                 [ Val (VBool false);
                   el "div"
                      [className "grid  gap-5 grid-cols-1 lg:grid-cols-2 xl:grid-cols-3 lg:max-w-none"]
                      [Arr cards] ] /\
         List.length cards = List.length ws /\ In (Grid.card p) cards) /\
    (forall p, exists children,
       Grid.card p
       = Elem (Component "Link") (Some (Grid.slug p))
           [("href"%string, VString (js "/websites/" ++ Grid.slug p))] children).
Proof.
  set (R := fun category sec =>
         exists ws,
           Grid.property websitesByCategory category = Some ws /\
           sec = Elem (Tag "div") (Some category)
                   [ ("id"%string, VString (toLowerCase host category));
                     className "space-y-8" ]
                   [ Val (VBool false);
                     el "div"
                        [className "grid  gap-5 grid-cols-1 lg:grid-cols-2 xl:grid-cols-3 lg:max-w-none"]
                        [Arr (map Grid.card ws)] ]).
  destruct (@mapM_Forall2 _ _ (Grid.section host true websitesByCategory) R
              (Grid.Object_keys websitesByCategory)) as [sections [Hmap HF]].
  { intros c Hc. destruct (property_of_key _ _ Hc) as [ws Hws].
    eexists. split.
    - unfold Grid.section. rewrite Hws. reflexivity.
    - exists ws. split; [exact Hws | reflexivity]. }
  exists sections. split; [|split; [|split; [exact HF|split]]].
  - unfold Grid.WebsiteTileGrid. simpl. rewrite Hmap. reflexivity.
  - simpl. rewrite !orb_false_r.
    clear Hmap. induction HF as [|c sec l ys [ws [_ ->]] HF IH]; simpl; auto.
    rewrite cards_no_header, IH. reflexivity.
  - intros Hnd category ws p Hmem Hp.
    assert (Hkey : In category (Grid.Object_keys websitesByCategory)).
    { apply in_map_iff. exists (category, ws). auto. }
    destruct (Forall2_In_l category HF Hkey) as [sec [Hsec [ws' [Hws' ->]]]].
    rewrite (property_of_member _ _ _ Hnd Hmem) in Hws'. injection Hws' as <-.
    eexists. exists (map Grid.card ws). split; [exact Hsec|]. split; [reflexivity|].
    split; [apply length_map | now apply in_map].
  - intros p. eexists. reflexivity.
Qed.

Lemma WebsiteTileGrid_hidden_categories_witness :
  exists sections,
    Grid.WebsiteTileGrid Sample.host Sample.tiles (Some true)
    = Normal (Elem Fragment None [] [Arr sections]) /\
    has_tag "h2" (Elem Fragment None [] [Arr sections]) = false /\
    exists sec cards,
      In sec sections /\
      sec = Elem (Tag "div") (Some (js "News"))
              [ ("id"%string, VString (js "news")); className "space-y-8" ]
              [ Val (VBool false);
                el "div"
                   [className "grid  gap-5 grid-cols-1 lg:grid-cols-2 xl:grid-cols-3 lg:max-w-none"]
                   [Arr cards] ] /\
      List.length cards = 1%nat /\ In (Grid.card (Sample.tile "daily")) cards.
Proof.
  destruct (WebsiteTileGrid_hidden_categories Sample.host Sample.tiles)
    as [sections [Heq [Hno [_ [Hcards _]]]]].
  exists sections. split; [exact Heq|]. split; [exact Hno|].
  apply (Hcards ltac:(vm_compute; repeat constructor; simpl; intuition discriminate)
                (js "News") [Sample.tile "daily"] (Sample.tile "daily")).
  - simpl. auto.
  - simpl. auto.
Defined.

(** With categories shown, the same grid has its headers. *)
Example WebsiteTileGrid_shows_categories :
  exists tree,
    Grid.WebsiteTileGrid Sample.host Sample.tiles None = Normal tree /\
    has_tag "h2" tree = true /\
    occurs (el "h2" [className "h2"] [Txt "Tools"]) tree.
Proof.
  eexists. split; [reflexivity|]. split; [reflexivity|].
  child 0%nat. item 0%nat. child 0%nat. apply occurs_here.
Qed.

(* ================================================================== *)
(** * Further properties of the pages *)
(* ================================================================== *)

(* ------------------------------------------------------------------ *)
(** ** Trimming and route keys *)
(* ------------------------------------------------------------------ *)

Section TrimFacts.

Import JsString.

Lemma trimStart_head s c r : trimStart s = c :: r -> is_space c = false.
Proof.
  induction s as [|a s IH]; simpl; [discriminate|].
  destruct (is_space a) eqn:E; [exact IH|].
  intros H. injection H as <- _. exact E.
Qed.

Lemma trimStart_snoc l c :
  is_space c = false -> trimStart (l ++ [c]) = trimStart l ++ [c].
Proof.
  intros Hc. induction l as [|a l IH]; simpl.
  - now rewrite Hc.
  - destruct (is_space a); [exact IH | reflexivity].
Qed.

Lemma last_cons (c : N) r d : last (c :: r) d = last r c.
Proof.
  revert c d. induction r as [|a r IH]; intros c d; [reflexivity|].
  change (last (c :: a :: r) d) with (last (a :: r) d).
  now rewrite (IH a d), (IH a c).
Qed.

Lemma trim_trimmed s : trimmed (trim s) = true.
Proof.
  unfold trim, trimEnd.
  destruct (trimStart s) as [|c r] eqn:Hs; [reflexivity|].
  pose proof (@trimStart_head s c r Hs) as Hc.
  simpl rev. rewrite (@trimStart_snoc (rev r) c Hc), rev_app_distr. simpl.
  rewrite Hc. simpl.
  destruct (trimStart (rev r)) as [|d v] eqn:Hv; simpl.
  - now rewrite Hc.
  - rewrite last_last, (@trimStart_head (rev r) d v Hv). reflexivity.
Qed.

Lemma trimmed_trim s : trimmed s = true -> trim s = s.
Proof.
  destruct s as [|c r]; [reflexivity|]. simpl.
  intros H. apply andb_prop in H. destruct H as [Hc Hl].
  apply negb_true_iff in Hc, Hl.
  unfold trim. simpl. rewrite Hc. unfold trimEnd.
  destruct (exists_last (l := c :: r)) as [l' [a Ha]]; [discriminate|].
  assert (Hlast : last r c = a).
  { rewrite <- (last_cons c r c), Ha. apply last_last. }
  rewrite Ha, rev_app_distr. simpl. rewrite <- Hlast, Hl.
  rewrite Hlast. simpl. now rewrite rev_involutive.
Qed.

Lemma trim_idempotent s : trim (trim s) = trim s.
Proof. apply trimmed_trim, trim_trimmed. Qed.

End TrimFacts.

Section OrderFacts.

Import Paths.

Lemma filter_filter_and {A} (f g : A -> bool) l :
  filter f (filter g l) = filter (fun a => g a && f a) l.
Proof.
  induction l as [|a l IH]; simpl; [reflexivity|].
  destruct (g a); simpl; [destruct (f a)|]; now rewrite IH.
Qed.

Lemma filter_all {A} (f : A -> bool) l :
  (forall a, In a l -> f a = true) -> filter f l = l.
Proof.
  induction l as [|a l IH]; simpl; intros H; [reflexivity|].
  rewrite (H a (or_introl eq_refl)), IH; auto.
Qed.

Lemma neqb_sym_true (x y : jsstring) :
  negb (JsString.eqb y x) = true <-> y <> x.
Proof.
  rewrite negb_true_iff. split.
  - intros H E. apply eqb_eq in E. congruence.
  - intros H. destruct (JsString.eqb y x) eqn:E; [|reflexivity].
    apply eqb_eq in E. contradiction.
Qed.

Lemma Set_add_all_first_occurrences seen xs :
  Set_add_all seen xs = seen ++ filter (fresh_in seen) (first_occurrences xs).
Proof.
  revert seen. induction xs as [|x r IH]; intros seen; simpl.
  - now rewrite app_nil_r.
  - unfold fresh_in at 1.
    destruct (in_dec JsString.eq_dec x seen) as [Hin|Hout]; rewrite IH.
    + f_equal. rewrite filter_filter_and. apply filter_ext. intros y.
      unfold fresh_in. destruct (in_dec JsString.eq_dec y seen) as [|Hy];
        [now rewrite andb_false_r|].
      rewrite andb_true_r. symmetry. apply neqb_sym_true. congruence.
    + rewrite <- app_assoc. simpl. do 2 f_equal.
      rewrite filter_filter_and. apply filter_ext. intros y. unfold fresh_in.
      destruct (in_dec JsString.eq_dec y (seen ++ [x])) as [Hy|Hy];
        destruct (in_dec JsString.eq_dec y seen) as [Hs|Hs];
        rewrite ?andb_false_r, ?andb_true_r; try reflexivity.
      * apply in_app_iff in Hy. destruct Hy as [Hy|[<-|[]]]; [contradiction|].
        now rewrite eqb_refl.
      * destruct Hy. apply in_app_iff. now left.
      * symmetry. apply neqb_sym_true. intros ->. apply Hy.
        apply in_app_iff. right. now left.
Qed.

Lemma Array_from_Set_first_occurrences xs :
  Array_from_Set xs = first_occurrences xs.
Proof.
  unfold Array_from_Set. rewrite Set_add_all_first_occurrences. simpl.
  apply filter_all. reflexivity.
Qed.


Lemma keys_of_names names :
  keys_of names
  = first_occurrences (filter JsString.truthy (map JsString.trim names)).
Proof.
  unfold keys_of. rewrite Array_from_Set_first_occurrences. f_equal.
  induction names as [|n names IH]; simpl; [reflexivity|].
  destruct (JsString.truthy (JsString.trim n)); simpl; now rewrite IH.
Qed.

Lemma keys_of_trimmed names key :
  In key (keys_of names) -> trimmed key = true /\ key <> [].
Proof.
  intros H. apply keys_of_In in H. destruct H as [Hne [name [_ ->]]].
  split; [apply trim_trimmed | exact Hne].
Qed.


End OrderFacts.

(** X1. No route key that path discovery returns starts or ends with a
    white-space code unit, and trimming a route key again leaves it
    unchanged. *)
Theorem route_keys_trimmed (supabase : Supabase) :
  Forall (fun key => trimmed key = true /\ JsString.trim key = key)
         (Paths.slugs (Paths.getStaticPaths supabase)).
Proof.
  apply Forall_forall. intros key Hkey.
  destruct (slugs_cases supabase) as [[websites [names [_ [_ Hs]]]]|Hs];
    rewrite Hs in Hkey; [|destruct Hkey].
  destruct (keys_of_trimmed _ _ Hkey) as [Ht _].
  split; [exact Ht | now apply trimmed_trim].
Qed.

(** X2. When the name query succeeds and no row has a null name, the
    route keys are the non-empty trimmed names, each at the position of
    its first occurrence: a later row that trims to a name already seen
    adds nothing and moves nothing. When the name query succeeds and
    some row has a null name, there is no route key. *)
Theorem route_keys_first_seen (supabase : Supabase) (websites : list NameRow.t) :
  select_site_names supabase = Resolved (Some websites) None ->
  (forall names,
     websites = rows_named names ->
     Paths.slugs (Paths.getStaticPaths supabase)
     = first_occurrences (filter JsString.truthy (map JsString.trim names))) /\
  (In {| NameRow.site_name := None |} websites ->
   Paths.slugs (Paths.getStaticPaths supabase) = []).
Proof.
  intros Hq. split.
  - intros names ->.
    rewrite (slugs_resolved _ Hq (names_of_rows_named names)). apply keys_of_names.
  - intros Hnull. apply names_of_None in Hnull.
    unfold Paths.slugs. now rewrite (slugs_null _ Hq Hnull).
Qed.

Lemma route_keys_first_seen_witness :
  Paths.slugs (Paths.getStaticPaths Sample.store)
  = first_occurrences
      (filter JsString.truthy
         (map JsString.trim [js " Example "; js "Example"; js "   "; js "Other"])) /\
  Paths.slugs (Paths.getStaticPaths Sample.store_with_null) = [].
Proof.
  split.
  - apply (proj1 (@route_keys_first_seen Sample.store _ eq_refl)). reflexivity.
  - apply (proj2 (@route_keys_first_seen Sample.store_with_null _ eq_refl)).
    simpl. auto 6.
Defined.



(* ------------------------------------------------------------------ *)
(** ** Outcomes of prop resolution *)
(* ------------------------------------------------------------------ *)

(** X4. Prop resolution answers not-found in exactly these cases: no
    params, no slug or an empty one; a website query that is rejected,
    resolves with an error or resolves without a row; and a
    terms-of-service query that is rejected, which discards the website
    row already fetched. *)
Theorem getStaticProps_notFound_iff
        (supabase : Supabase) (params : option Props.Params) :
  Props.getStaticProps supabase params = Props.notFound <->
  match params with
  | None => True
  | Some p =>
      match Props.slug p with
      | None => True
      | Some key =>
          key = [] \/
          (exists e, select_website supabase key = Rejected e) \/
          (exists data err, select_website supabase key = Resolved data (Some err)) \/
          select_website supabase key = Resolved None None \/
          (exists website e,
             select_website supabase key = Resolved (Some website) None /\
             select_terms_of_service supabase (id website) = Rejected e)
      end
  end.
Proof.
  unfold Props.getStaticProps, Props.getStaticProps_body.
  destruct params as [[[key|]]|]; simpl; try tauto.
  destruct key as [|c key]; simpl; [tauto|].
  destruct (select_website supabase (c :: key)) as [e|[website|] [err|]] eqn:Hw; simpl.
  - split; [eauto | reflexivity].
  - split; [intros _; right; right; left; eauto | reflexivity].
  - destruct (select_terms_of_service supabase (id website)) as [e|data [err|]] eqn:Ht;
      simpl.
    + split; [intros _; do 4 right; eauto | reflexivity].
    + split; [discriminate|].
      intros [H|[[e H]|[[d [e H]]|[H|[w [e [H1 H2]]]]]]]; try discriminate.
      injection H1 as <-. rewrite Ht in H2. discriminate.
    + split; [discriminate|].
      intros [H|[[e H]|[[d [e H]]|[H|[w [e [H1 H2]]]]]]]; try discriminate.
      injection H1 as <-. rewrite Ht in H2. discriminate.
  - split; [intros _; right; right; left; eauto | reflexivity].
  - split; [tauto | reflexivity].
Qed.

Lemma props_inversion supabase params website tos revalidate :
  Props.getStaticProps supabase params = Props.props website tos revalidate ->
  exists key,
    params = Some {| Props.slug := Some key |} /\ key <> [] /\
    select_website supabase key = Resolved (Some website) None /\
    ((exists data err,
        select_terms_of_service supabase (id website) = Resolved data (Some err) /\
        tos = None /\ revalidate = None) \/
     (select_terms_of_service supabase (id website) = Resolved tos None /\
      revalidate = Some 18000%N)).
Proof.
  unfold Props.getStaticProps, Props.getStaticProps_body.
  destruct params as [[[key|]]|]; simpl; try discriminate.
  destruct key as [|c key]; simpl; [discriminate|].
  destruct (select_website supabase (c :: key)) as [e|[w|] [err|]] eqn:Hw;
    simpl; try discriminate.
  destruct (select_terms_of_service supabase (id w)) as [e|data [err|]] eqn:Ht;
    simpl; try discriminate; intros H; injection H as <- <- <-;
    exists (c :: key); repeat split; try discriminate; auto.
  left. eauto.
Qed.

Lemma keys_trimmed_all supabase key :
  In key (Paths.slugs (Paths.getStaticPaths supabase)) ->
  trimmed key = true /\ JsString.trim key = key /\ key <> [].
Proof.
  intros Hkey.
  destruct (slugs_cases supabase) as [[websites [names [_ [_ Hs]]]]|Hs];
    rewrite Hs in Hkey; [|destruct Hkey].
  destruct (keys_of_trimmed _ _ Hkey) as [Ht Hne].
  repeat split; auto. now apply trimmed_trim.
Qed.

(** X5. Prop resolution returns a props bundle exactly when the slug is
    a non-empty string, the website query resolves with a row and no
    error, and the terms-of-service query resolves rather than is
    rejected; the bundle holds that row. The bundle has the answer of
    the terms-of-service query and the interval 18000 when that query
    resolves without error, and neither a record nor an interval when
    it resolves with an error. *)
Theorem getStaticProps_props_iff
        (supabase : Supabase) (params : option Props.Params)
        (website : WebsiteRow) (tos : option TermsOfServiceRow)
        (revalidate : option N) :
  Props.getStaticProps supabase params = Props.props website tos revalidate <->
  exists key,
    params = Some {| Props.slug := Some key |} /\ key <> [] /\
    select_website supabase key = Resolved (Some website) None /\
    ((exists data err,
        select_terms_of_service supabase (id website) = Resolved data (Some err) /\
        tos = None /\ revalidate = None) \/
     (select_terms_of_service supabase (id website) = Resolved tos None /\
      revalidate = Some 18000%N)).
Proof.
  split; [apply props_inversion|].
  unfold Props.getStaticProps, Props.getStaticProps_body.
  intros [key [-> [Hne [Hw Ht]]]]. simpl.
  apply truthy_nonempty in Hne. rewrite Hne, Hw. simpl.
  destruct Ht as [[data [err [-> [-> ->]]]]|[-> ->]]; reflexivity.
Qed.

Lemma getStaticProps_props_iff_witness :
  Props.getStaticProps Sample.store (Some {| Props.slug := Some (js "Example") |})
  = Props.props Sample.example_com None None.
Proof.
  apply (proj2 (getStaticProps_props_iff Sample.store
                  (Some {| Props.slug := Some (js "Example") |})
                  Sample.example_com None None)).
  exists (js "Example"). split; [reflexivity|].
  split; [vm_compute; discriminate|]. split; [reflexivity|].
  left. exists None, {| message := js "no rows" |}. auto.
Defined.

(** X6. On a store whose website query selects by equality of names, a
    website served for a route key of path discovery is stored under
    exactly that key: its stored name is not empty and has no white
    space at either end. *)
Theorem served_website_has_trimmed_name
        (supabase : Supabase) (key : jsstring) (website : WebsiteRow)
        (tos : option TermsOfServiceRow) (revalidate : option N) :
  exact_match supabase ->
  In key (Paths.slugs (Paths.getStaticPaths supabase)) ->
  Props.getStaticProps supabase (Some {| Props.slug := Some key |})
  = Props.props website tos revalidate ->
  site_name website = key /\
  JsString.trim (site_name website) = site_name website /\
  site_name website <> [].
Proof.
  intros Hexact Hkey Hprops.
  apply props_inversion in Hprops.
  destruct Hprops as [key' [Hp [Hne [Hw _]]]]. injection Hp as <-.
  rewrite (Hexact _ _ Hw).
  destruct (keys_trimmed_all _ _ Hkey) as [_ [Htrim _]].
  auto.
Qed.

Lemma served_website_has_trimmed_name_witness :
  site_name Sample.example_com = js "Example" /\
  JsString.trim (site_name Sample.example_com) = site_name Sample.example_com /\
  site_name Sample.example_com <> [].
Proof.
  apply (@served_website_has_trimmed_name Sample.store (js "Example")
           Sample.example_com None None).
  - intros slug website. simpl.
    destruct (JsString.eqb slug (js "Example")) eqn:E; [|discriminate].
    intros H. injection H as <-. apply eqb_eq in E. now rewrite E.
  - vm_compute. auto.
  - reflexivity.
Defined.

(* ------------------------------------------------------------------ *)
(** ** The overview of the detail page *)
(* ------------------------------------------------------------------ *)

Section OverviewFacts.

Import Page.

Lemma overview_throws_TypeError sc e : overview sc = Throw e -> e = TypeError.
Proof.
  unfold overview. destruct (truthy sc); [|discriminate].
  destruct (get sc (js "summary")) as [s|e1] eqn:Hs; simpl.
  2:{ destruct sc; simpl in Hs; try discriminate; try congruence.
      destruct (lookup (js "summary") members); discriminate. }
  destruct (Object_entries s) as [entries|e2] eqn:He; simpl.
  2:{ destruct s; simpl in He; try discriminate; congruence. }
  destruct (get sc (js "potentialDangers")) as [d|e3] eqn:Hd; simpl.
  2:{ destruct sc; simpl in Hd; try discriminate; try congruence.
      destruct (lookup (js "potentialDangers") members); discriminate. }
  destruct (Array_map d danger_item) as [items|e4] eqn:Hi; simpl.
  2:{ destruct d; simpl in Hi; try discriminate; congruence. }
  destruct (get sc (js "overallAssessment")) as [a|e5] eqn:Ha; simpl; [discriminate|].
  destruct sc; simpl in Ha; try discriminate; try congruence.
  destruct (lookup (js "overallAssessment") members); discriminate.
Qed.

Lemma overview_truthy_not_placeholder sc :
  truthy sc = true -> overview sc <> Normal placeholder.
Proof.
  intros Ht. unfold overview. rewrite Ht.
  destruct (get sc (js "summary")) as [s|]; simpl; [|discriminate].
  destruct (Object_entries s) as [entries|]; simpl; [|discriminate].
  destruct (get sc (js "potentialDangers")) as [d|]; simpl; [|discriminate].
  destruct (Array_map d danger_item) as [items|]; simpl; [|discriminate].
  destruct (get sc (js "overallAssessment")) as [a|]; simpl; discriminate.
Qed.

Lemma overview_not_object sc :
  truthy sc = true -> (forall members, sc <> VObject members) ->
  overview sc = Throw TypeError.
Proof.
  intros Ht Hno. unfold overview. rewrite Ht.
  destruct sc; simpl in *; try discriminate; try reflexivity.
  now destruct (Hno members).
Qed.

Lemma nth_error_indexed {A} (l : list A) n i x :
  nth_error l i = Some x ->
  nth_error (indexed n l) i = Some ((n + N.of_nat i)%N, x).
Proof.
  revert n i. induction l as [|a l IH]; intros n [|i]; simpl; try discriminate.
  - intros H. injection H as ->. now rewrite N.add_0_r.
  - intros H. rewrite (IH (N.succ n) i H). do 2 f_equal. lia.
Qed.

Lemma length_indexed {A} (l : list A) n : List.length (indexed n l) = List.length l.
Proof. revert n. induction l; intros n; simpl; auto. Qed.

Lemma entries_no_tag tag entries :
  tag <> "p"%string -> tag <> "strong"%string ->
  existsb (has_tag tag) (map summary_entry entries) = false.
Proof.
  intros Hp Hs. apply String.eqb_neq in Hp, Hs.
  induction entries as [|kv l IH]; simpl; [reflexivity|].
  now rewrite Hp, Hs, IH.
Qed.

Lemma items_no_tag {A} tag (f : A -> N) (g : A -> value) (l : list A) :
  tag <> "li"%string ->
  existsb (has_tag tag) (map (fun p => danger_item (g p) (f p)) l) = false.
Proof.
  intros Hl. apply String.eqb_neq in Hl.
  induction l as [|a l IH]; simpl; [reflexivity|].
  now rewrite Hl, IH.
Qed.

Lemma overview_no_img sc ov :
  overview sc = Normal ov -> has_tag "img" ov = false.
Proof.
  unfold overview. destruct (truthy sc).
  2:{ intros H. injection H as <-. reflexivity. }
  destruct (get sc (js "summary")) as [s|]; simpl; [|discriminate].
  destruct (Object_entries s) as [entries|]; simpl; [|discriminate].
  destruct (get sc (js "potentialDangers")) as [d|]; simpl; [|discriminate].
  destruct d; simpl; try discriminate.
  destruct (get sc (js "overallAssessment")) as [a|]; simpl; [|discriminate].
  intros H. injection H as <-. simpl.
  rewrite entries_no_tag by discriminate.
  rewrite (items_no_tag (A := N * value) fst snd) by discriminate.
  reflexivity.
Qed.

End OverviewFacts.

(** X7. The overview of the detail page is the placeholder exactly when
    the decoded summary is falsy. It is falsy without a
    terms-of-service record, without a payload and with the empty
    payload, for which [JSON.parse] is not called, and when the payload
    decodes to null, false, the empty string or a number that rounds
    to zero. *)
Theorem overview_placeholder_iff (host : Host) (tos : option TermsOfServiceRow) :
  (Page.overview (Page.parse_simplified_content host tos)
   = Normal (el "p" [] [Txt "Loading content..."])
   <-> truthy (Page.parse_simplified_content host tos) = false) /\
  (tos = None \/
   (exists t, tos = Some t /\
      (simplified_content t = None \/ simplified_content t = Some [] \/
       exists payload v,
         simplified_content t = Some payload /\ JSON_parse host payload = Normal v /\
         (v = VNull \/ v = VBool false \/ v = VString [] \/
          exists n, v = VNumber n /\ rounds_to_zero n = true))) ->
   truthy (Page.parse_simplified_content host tos) = false).
Proof.
  split.
  - split.
    + intros H.
      destruct (truthy (Page.parse_simplified_content host tos)) eqn:Ht; [|reflexivity].
      now destruct (overview_truthy_not_placeholder _ Ht).
    + apply overview_falsy.
  - intros [->|[t [-> [H|[H|[payload [v [H [Hv Hf]]]]]]]]];
      unfold Page.parse_simplified_content; try rewrite H; try reflexivity.
    destruct (JsString.truthy payload); [|reflexivity].
    rewrite Hv. simpl. destruct Hf as [->|[->|[->|[n [-> Hn]]]]]; simpl;
      try reflexivity. now rewrite Hn.
Qed.

Lemma overview_placeholder_iff_witness :
  truthy (Page.parse_simplified_content Sample.host
            (Some (Sample.example_tos (Some (js "null"))))) = false.
Proof.
  apply (proj2 (overview_placeholder_iff Sample.host
                  (Some (Sample.example_tos (Some (js "null")))))).
  right. eexists. split; [reflexivity|]. right; right.
  exists (js "null"), VNull. auto.
Defined.

(** X8. A payload that decodes to a truthy value other than an object
    (true, a non-zero number, a non-empty string, an array) makes the
    overview, and with it the page, throw a TypeError, whatever the
    website. *)
Theorem WebsitePage_non_object_throws
        (host : Host) (website : WebsiteRow) (tos : option TermsOfServiceRow) :
  truthy (Page.parse_simplified_content host tos) = true ->
  (forall members, Page.parse_simplified_content host tos <> VObject members) ->
  Page.WebsitePage host (Some website) tos = Throw TypeError.
Proof.
  intros Ht Hno. unfold Page.WebsitePage.
  now rewrite (overview_not_object Ht Hno).
Qed.

Lemma WebsitePage_non_object_throws_witness :
  Page.WebsitePage Sample.host (Some Sample.example_com)
    (Some (Sample.example_tos (Some (js "[1, 2]")))) = Throw TypeError.
Proof.
  apply WebsitePage_non_object_throws.
  - reflexivity.
  - vm_compute. discriminate.
Defined.

(** X9. For a decoded object whose [summary] has entries and whose
    [potentialDangers] is an array, the overview has one paragraph per
    entry and one list item per danger, in order: the paragraph at
    position [i] has the key of entry [i] as its React key and label
    and the value of entry [i] as its text, and the item at position
    [i] has the key [i] and shows danger [i]. The last paragraph shows
    [overallAssessment], or undefined when the object has none. *)
Theorem overview_lists
        (members : list (jsstring * value)) (summary : value)
        (entries : list (jsstring * value)) (items : list value) :
  lookup (js "summary") members = Some summary ->
  Object_entries summary = Normal entries ->
  lookup (js "potentialDangers") members = Some (VArray items) ->
  exists paragraphs lis,
    Page.overview (VObject members)
    = Normal (Elem Fragment None []
                [ el "h3" [] [Txt "Summary"];
                  Arr paragraphs;
                  el "h3" [] [Txt "Potential Dangers"];
                  el "ul" [] [Arr lis];
                  el "h3" [] [Txt "Overall Assessment"];
                  el "p" []
                    [Val (match lookup (js "overallAssessment") members with
                          | Some v => v
                          | None => VUndefined
                          end)] ]) /\
    List.length paragraphs = List.length entries /\
    List.length lis = List.length items /\
    (forall i k v,
       nth_error entries i = Some (k, v) ->
       nth_error paragraphs i
       = Some (Elem (Tag "p") (Some k) []
                 [ el "strong" [] [Str k; Txt ":"]; Txt " "; Val v ])) /\
    (forall i d,
       nth_error items i = Some d ->
       nth_error lis i
       = Some (Elem (Tag "li") (Some (JsString.of_N (N.of_nat i))) [] [Val d])).
Proof.
  intros Hs He Hd.
  exists (map Page.summary_entry entries),
         (map (fun p => Page.danger_item (snd p) (fst p)) (indexed 0 items)).
  split; [|split; [|split; [|split]]].
  - unfold Page.overview, get. cbn [truthy]. rewrite Hs. cbn [bind].
    rewrite He, Hd. cbn [bind Array_map].
    destruct (lookup (js "overallAssessment") members); reflexivity.
  - apply length_map.
  - rewrite length_map. apply length_indexed.
  - intros i k v H. apply (map_nth_error Page.summary_entry) in H.
    rewrite H. reflexivity.
  - intros i d H. apply (nth_error_indexed _ 0%N) in H.
    apply (map_nth_error (fun p => Page.danger_item (snd p) (fst p))) in H.
    rewrite H. reflexivity.
Qed.

Lemma overview_lists_witness :
  exists paragraphs lis,
    Page.overview
      (VObject [ (js "summary", VObject [ (js "a", VString (js "x"));
                                          (js "b", VString (js "y")) ]);
                 (js "potentialDangers", VArray [VString (js "d0"); VString (js "d1")]) ])
    = Normal (Elem Fragment None []
                [ el "h3" [] [Txt "Summary"];
                  Arr paragraphs;
                  el "h3" [] [Txt "Potential Dangers"];
                  el "ul" [] [Arr lis];
                  el "h3" [] [Txt "Overall Assessment"];
                  el "p" [] [Val VUndefined] ]) /\
    nth_error paragraphs 1
    = Some (Elem (Tag "p") (Some (js "b")) []
              [ el "strong" [] [Str (js "b"); Txt ":"]; Txt " "; Txt "y" ]) /\
    nth_error lis 1 = Some (Elem (Tag "li") (Some (js "1")) [] [Txt "d1"]).
Proof.
  destruct (@overview_lists
              [ (js "summary", VObject [ (js "a", VString (js "x"));
                                         (js "b", VString (js "y")) ]);
                (js "potentialDangers", VArray [VString (js "d0"); VString (js "d1")]) ]
              (VObject [ (js "a", VString (js "x")); (js "b", VString (js "y")) ])
              [ (js "a", VString (js "x")); (js "b", VString (js "y")) ]
              [VString (js "d0"); VString (js "d1")]
              eq_refl eq_refl eq_refl)
    as [paragraphs [lis [Hov [_ [_ [Hp Hl]]]]]].
  exists paragraphs, lis. split; [exact Hov|]. split.
  - exact (Hp 1%nat (js "b") (VString (js "y")) eq_refl).
  - exact (Hl 1%nat (VString (js "d1")) eq_refl).
Defined.

Lemma when_string_no_tag tag s e :
  (forall x, has_tag tag (e x) = false) -> has_tag tag (when_string s e) = false.
Proof.
  intros H. unfold when_string. destruct s as [x|]; [|reflexivity].
  destruct (JsString.truthy x); [apply H | reflexivity].
Qed.

Lemma WebsitePage_inversion host website tos tree :
  Page.WebsitePage host (Some website) tos = Normal tree ->
  exists ov h,
    Page.overview (Page.parse_simplified_content host tos) = Normal ov /\
    URL_host host (url website) = Normal h /\
    tree = Page.page website ov
             [ Page.website_row website h; Page.tos_row tos;
               when_string (category website) Page.category_row;
               when_string (last_crawled website) (Page.last_crawled_row host) ].
Proof.
  unfold Page.WebsitePage, Page.details.
  destruct (Page.overview (Page.parse_simplified_content host tos)) as [ov|];
    simpl; [|discriminate].
  destruct (URL_host host (url website)) as [h|]; simpl; [|discriminate].
  intros H. injection H as <-. eauto.
Qed.

(** X10. A tree the page evaluates to has an [<img>] element exactly
    when the website has a non-empty [logo_svg]; the image then has
    that string as its source and the site name followed by [ logo] as
    its alternative text. Nothing of the summary can add an image. *)
Theorem logo_shown_iff
        (host : Host) (website : WebsiteRow) (tos : option TermsOfServiceRow)
        (tree : node) :
  Page.WebsitePage host (Some website) tos = Normal tree ->
  (has_tag "img" tree = true <-> exists l, logo_svg website = Some l /\ l <> []) /\
  (forall l, logo_svg website = Some l -> l <> [] ->
     occurs (el "img" [ ("src"%string, VString l);
                        ("alt"%string, VString (site_name website ++ js " logo"));
                        className "h-10 w-10" ] [])
            tree).
Proof.
  intros Htree. apply WebsitePage_inversion in Htree.
  destruct Htree as [ov [h [Hov [_ ->]]]]. split.
  - unfold Page.page. cbn -[when_string JsString.lit].
    rewrite (overview_no_img _ Hov).
    rewrite (@when_string_no_tag "img" (category website) Page.category_row)
      by reflexivity.
    rewrite (@when_string_no_tag "img" (last_crawled website)
               (Page.last_crawled_row host)) by reflexivity.
    rewrite !orb_false_r. unfold when_string.
    destruct (logo_svg website) as [[|c l]|]; simpl; split;
      try discriminate; try reflexivity.
    + intros [l [H Hne]]. injection H as <-. now destruct Hne.
    + intros _. eexists. split; [reflexivity | discriminate].
    + intros [l [H _]]. discriminate.
  - intros l Hl Hne. unfold Page.page.
    child 1%nat. child 0%nat. child 0%nat. child 1%nat. child 0%nat.
    rewrite Hl. unfold when_string. apply truthy_nonempty in Hne. rewrite Hne.
    apply occurs_here.
Qed.

Lemma logo_shown_iff_witness :
  exists tree,
    Page.WebsitePage Sample.host (Some Sample.with_logo)
      (Some (Sample.example_tos (Some Sample.payload))) = Normal tree /\
    has_tag "img" tree = true /\
    occurs (el "img" [ ("src"%string, VString (js "/logos/site.svg"));
                       ("alt"%string, VString (js "Logo Site logo"));
                       className "h-10 w-10" ] [])
           tree.
Proof.
  destruct (Page.WebsitePage Sample.host (Some Sample.with_logo)
              (Some (Sample.example_tos (Some Sample.payload))))
    as [tree|e] eqn:Hpage; [|vm_compute in Hpage; discriminate].
  exists tree. split; [reflexivity|].
  destruct (@logo_shown_iff Sample.host Sample.with_logo
              (Some (Sample.example_tos (Some Sample.payload))) tree Hpage)
    as [Hiff Hocc].
  split.
  - apply Hiff. exists (js "/logos/site.svg"). split; [reflexivity|].
    vm_compute. discriminate.
  - apply (Hocc (js "/logos/site.svg") eq_refl). vm_compute. discriminate.
Defined.

(** X11. The only exceptions of the page are a TypeError from the
    shape of the decoded summary and whatever the URL constructor
    throws for the url of the website; in particular the exception of
    a failed [JSON.parse] never leaves the page. *)
Theorem WebsitePage_exceptions
        (host : Host) (website : option WebsiteRow)
        (tos : option TermsOfServiceRow) (e : js_error) :
  Page.WebsitePage host website tos = Throw e ->
  exists w,
    website = Some w /\
    ((Page.overview (Page.parse_simplified_content host tos) = Throw TypeError /\
      e = TypeError) \/
     ((exists ov, Page.overview (Page.parse_simplified_content host tos) = Normal ov) /\
      URL_host host (url w) = Throw e)).
Proof.
  destruct website as [w|]; [|discriminate]. intros H. exists w. split; [reflexivity|].
  unfold Page.WebsitePage, Page.details in H.
  destruct (Page.overview (Page.parse_simplified_content host tos)) as [ov|e'] eqn:Hov;
    simpl in H.
  - right. split; [eauto|].
    destruct (URL_host host (url w)) as [h|e'']; simpl in H; [discriminate|].
    congruence.
  - left. injection H as <-. pose proof (overview_throws_TypeError _ Hov) as ->. auto.
Qed.

Lemma WebsitePage_exceptions_witness :
  exists w,
    Some Sample.no_scheme = Some w /\
    ((Page.overview (Page.parse_simplified_content Sample.host None) = Throw TypeError /\
      TypeError = TypeError) \/
     ((exists ov, Page.overview (Page.parse_simplified_content Sample.host None) = Normal ov) /\
      URL_host Sample.host (url w) = Throw TypeError)).
Proof.
  apply (@WebsitePage_exceptions Sample.host (Some Sample.no_scheme) None TypeError).
  reflexivity.
Defined.

(* ------------------------------------------------------------------ *)
(** ** The layout wrapper and the listing grid, for every flag *)
(* ------------------------------------------------------------------ *)

(** X12. Whatever the flags, the wrapper keeps its children: they are
    the only child of [<main>]. The header slot holds [false] exactly
    when [hideHeader] is given as [true], and the navigation in every
    other case, independently of [hideFooter]. *)
Theorem Layout_children_and_header (p : LayoutComponent.LayoutProps) :
  occurs (LayoutComponent.children p) (LayoutComponent.Layout p) /\
  exists header footer,
    LayoutComponent.Layout p
    = Elem Fragment None []
        [ header;
          el "div" [className "flex flex-col min-h-screen"]
            [ el "main" [className "flex-grow"] [LayoutComponent.children p];
              footer ] ] /\
    (header = Val (VBool false) <-> LayoutComponent.hideHeader p = Some true) /\
    (header = comp "Nav" [] [] <-> LayoutComponent.hideHeader p <> Some true).
Proof.
  destruct p as [hh hf children]. simpl. split.
  - unfold LayoutComponent.Layout. simpl.
    child 1%nat. child 0%nat. child 0%nat. apply occurs_here.
  - exists (unless (default false hh) (comp "Nav" [] [])),
           (unless (default true hf) (el "div" [className "mt-auto"] [comp "Footer" [] []])).
    split; [reflexivity|].
    destruct hh as [[|]|]; simpl; repeat split; intros H;
      try discriminate; try reflexivity; try congruence.
Qed.

(** X13. The class the mount effect puts on the document element is
    [dark] when no preference is stored, when the stored value is the
    empty string and when it is [true]; for every other stored value it
    is the empty class. *)
Theorem darkModeClass_cases (key : option jsstring) :
  (LayoutComponent.darkModeClass key = js "dark" <->
   key = None \/ key = Some [] \/ key = Some (js "true")) /\
  (LayoutComponent.darkModeClass key <> js "dark" ->
   LayoutComponent.darkModeClass key = []).
Proof.
  unfold LayoutComponent.darkModeClass.
  destruct key as [[|c k]|]; simpl.
  - split; [split; auto | intros H; now destruct H].
  - destruct (JsString.eqb (c :: k) (js "true")) eqn:E.
    + apply eqb_eq in E. rewrite E. split; [split; auto | intros H; now destruct H].
    + split; [|reflexivity]. split; [discriminate|].
      intros [H|[H|H]]; try discriminate.
      assert (Hk : c :: k = js "true") by congruence.
      rewrite Hk, eqb_refl in E. discriminate.
  - split; [split; auto | intros H; now destruct H].
Qed.

Lemma grid_sections host (o : Grid.by_category) (flag : option bool) :
  exists sections,
    Grid.WebsiteTileGrid host o flag = Normal (Elem Fragment None [] [Arr sections]) /\
    Forall2
      (fun category sec =>
         exists ws,
           Grid.property o category = Some ws /\
           sec = Elem (Tag "div") (Some category)
                   [ ("id"%string, VString (toLowerCase host category));
                     className "space-y-8" ]
                   [ unless (default false flag) (Grid.header category);
                     Grid.grid (map Grid.card ws) ])
      (Grid.Object_keys o) sections.
Proof.
  destruct (@mapM_Forall2 _ _ (Grid.section host (default false flag) o)
              (fun category sec =>
                 exists ws,
                   Grid.property o category = Some ws /\
                   sec = Elem (Tag "div") (Some category)
                           [ ("id"%string, VString (toLowerCase host category));
                             className "space-y-8" ]
                           [ unless (default false flag) (Grid.header category);
                             Grid.grid (map Grid.card ws) ])
              (Grid.Object_keys o)) as [sections [Hmap HF]].
  { intros c Hc. destruct (property_of_key _ _ Hc) as [ws Hws].
    eexists. split.
    - unfold Grid.section. rewrite Hws. reflexivity.
    - exists ws. split; [exact Hws | reflexivity]. }
  exists sections. split; [|exact HF].
  unfold Grid.WebsiteTileGrid. rewrite Hmap. reflexivity.
Qed.

(** X14. The grid never throws: for every mapping and every value of
    [hideCategories] it evaluates to a fragment with one section per
    category, in the order of the keys. The section of a category has
    the category as its React key and its lower-cased name as id; it
    holds the header slot, which is the [<h2>] of the category unless
    [hideCategories] is true, and the cards of the list stored under
    the category. *)
Theorem WebsiteTileGrid_sections
        (host : Host) (websitesByCategory : Grid.by_category)
        (hideCategories : option bool) :
  exists sections,
    Grid.WebsiteTileGrid host websitesByCategory hideCategories
    = Normal (Elem Fragment None [] [Arr sections]) /\
    List.length sections = List.length websitesByCategory /\
    Forall2
      (fun category sec =>
         exists ws,
           Grid.property websitesByCategory category = Some ws /\
           sec = Elem (Tag "div") (Some category)
                   [ ("id"%string, VString (toLowerCase host category));
                     className "space-y-8" ]
                   [ match hideCategories with
                     | Some true => Val (VBool false)
                     | _ => el "h2" [className "h2"] [Str category]
                     end;
                     el "div"
                        [className "grid  gap-5 grid-cols-1 lg:grid-cols-2 xl:grid-cols-3 lg:max-w-none"]
                        [Arr (map Grid.card ws)] ])
      (Grid.Object_keys websitesByCategory) sections.
Proof.
  destruct (grid_sections host websitesByCategory hideCategories)
    as [sections [Heq HF]].
  exists sections. split; [exact Heq|]. split.
  - apply Forall2_length in HF. unfold Grid.Object_keys in HF.
    now rewrite length_map in HF.
  - eapply Forall2_impl; [|exact HF]. intros category sec [ws [Hws ->]].
    exists ws. split; [exact Hws|].
    destruct hideCategories as [[|]|]; reflexivity.
Qed.

(** X15. The output of the grid contains an [<h2>] element exactly when
    [hideCategories] is not true and the mapping has at least one
    category; a category with an empty list still gets its header. *)
Theorem WebsiteTileGrid_header_iff
        (host : Host) (websitesByCategory : Grid.by_category)
        (hideCategories : option bool) (tree : node) :
  Grid.WebsiteTileGrid host websitesByCategory hideCategories = Normal tree ->
  (has_tag "h2" tree = true <->
   hideCategories <> Some true /\ websitesByCategory <> []).
Proof.
  destruct (grid_sections host websitesByCategory hideCategories)
    as [sections [Heq HF]].
  rewrite Heq. intros H. injection H as <-. simpl. rewrite !orb_false_r.
  destruct websitesByCategory as [|[c ws] o].
  - inversion HF. simpl. split; [discriminate | intros [_ H]; now destruct H].
  - assert (Hflag : default false hideCategories = true <-> hideCategories = Some true).
    { destruct hideCategories as [[|]|]; simpl; split; congruence. }
    destruct (default false hideCategories) eqn:Hd.
    + assert (Hno : existsb (has_tag "h2") sections = false).
      { clear Heq. induction HF as [|k sec l ys [ws' [_ ->]] HF IH]; simpl; auto.
        rewrite cards_no_header, IH. reflexivity. }
      rewrite Hno. split; [discriminate|].
      intros [Hne _]. destruct Hne. now apply Hflag.
    + inversion HF as [|k sec l ys [ws' [_ Hsec]] HF' E1 E2]; subst. simpl.
      split; [|reflexivity]. intros _. split; [|discriminate].
      intros Hs. apply Hflag in Hs. discriminate.
Qed.

Lemma WebsiteTileGrid_header_iff_witness :
  exists tree,
    Grid.WebsiteTileGrid Sample.host [(js "Empty", [])] None = Normal tree /\
    has_tag "h2" tree = true.
Proof.
  eexists. split; [reflexivity|].
  apply (proj2 (@WebsiteTileGrid_header_iff Sample.host [(js "Empty", [])] None _ eq_refl)).
  split; discriminate.
Defined.
